(** * pnpm_uv backend: the account and authentication service

    A shallow embedding of [backend/models.py] (the [User] row and its
    password methods) and [backend/auth.py] (the token helpers and the
    seven HTTP endpoints), together with the admin bootstrap of
    [backend/main.py].

    - A Python [str] is a list of Unicode code points ([pystr]).
    - The [user] table is a list of rows in insertion order; its primary
      key and unique constraints are checked where a row is inserted.
    - An endpoint is a computation in a small state-and-exception monad
      over the table.
    - passlib's [CryptContext] and python-jose's [jwt] module are not part
      of the repository: they are interfaces ([CryptContext], [JOSE]) whose
      calls return or raise, with a symbolic instance of each used to run
      the endpoints on examples. *)

From Stdlib Require Import ZArith NArith String Ascii List Lia.
From stdpp Require Import base decidable option list strings gmap.

Local Open Scope string_scope.
Local Open Scope list_scope.

(** ** Python strings *)

Definition pystr : Type := list N.

(** A string literal of the source, as a [pystr]. *)
Definition py (s : string) : pystr := N_of_ascii <$> list_ascii_of_string s.

(** [c.encode('utf-8')] for one code point, which is at most 0x10FFFF;
    [None] stands for the [UnicodeEncodeError] raised on a lone
    surrogate. *)
Definition utf8_encode_char (c : N) : option (list N) :=
  if (c <? 0x80)%N then Some [c]
  else if (c <? 0x800)%N then
    Some [N.lor 0xC0 (N.shiftr c 6); N.lor 0x80 (N.land c 0x3F)]
  else if ((0xD800 <=? c) && (c <=? 0xDFFF))%N then None
  else if (c <? 0x10000)%N then
    Some [N.lor 0xE0 (N.shiftr c 12);
          N.lor 0x80 (N.land (N.shiftr c 6) 0x3F);
          N.lor 0x80 (N.land c 0x3F)]
  else
    Some [N.lor 0xF0 (N.shiftr c 18);
          N.lor 0x80 (N.land (N.shiftr c 12) 0x3F);
          N.lor 0x80 (N.land (N.shiftr c 6) 0x3F);
          N.lor 0x80 (N.land c 0x3F)].

(** [s.encode('utf-8')]. *)
Fixpoint utf8_encode (s : pystr) : option (list N) :=
  match s with
  | [] => Some []
  | c :: s' =>
      match utf8_encode_char c, utf8_encode s' with
      | Some bs, Some bs' => Some (bs ++ bs')%list
      | _, _ => None
      end
  end.

(** Python truthiness of an [Optional[str]]: [None] and [''] are falsy. *)
Definition truthy (v : option pystr) : bool :=
  match v with
  | Some (_ :: _) => true
  | _ => false
  end.

(** A code point on which [encode('utf-8')] raises. *)
Definition surrogate (c : N) : Prop := (0xD800 <= c <= 0xDFFF)%N.

(** The string a truthy [Optional[str]] holds. *)
Definition str_of (v : option pystr) : pystr := default [] v.

(** ** Exceptions and the endpoint monad *)

(** [fastapi.HTTPException(status_code, detail, headers)]. *)
Record HTTPException := mkHTTPException {
  status_code : Z;
  detail : string;
  headers : list (string * string)
}.

(** Exceptions that no handler of the source catches: of [str.encode],
    of the INSERT, and the two with which passlib refuses a secret
    ([ValueError] stands for its [PasswordValueError]). *)
Inductive PyException :=
| UnicodeEncodeError
| IntegrityError
| PasswordSizeError
| ValueError.

Inductive outcome (A : Type) :=
| Return (a : A)
| Raise (e : HTTPException)
| Crash (e : PyException).
Arguments Return {A} a.
Arguments Raise {A} e.
Arguments Crash {A} e.

(** The result of a call that returns a value or an exception, by a
    function applied to the value. *)
Definition outcome_map {A B} (f : A -> B) (o : outcome A) : outcome B :=
  match o with
  | Return a => Return (f a)
  | Raise e => Raise e
  | Crash e => Crash e
  end.

(** ** passlib's [CryptContext] *)

(** [pwd_context.hash] and [pwd_context.verify] return or raise.
    [pwd_context.hash] draws a random salt; the salt is an explicit
    argument here. *)
Class CryptContext := {
  pwhash : Type;
  ctx_hash : N -> pystr -> outcome pwhash;
  ctx_verify : pystr -> pwhash -> outcome bool
}.

(** The secrets passlib's [sha256_crypt] raises on, before it hashes
    anything: more than 4096 characters, a lone surrogate, a NUL. *)
Definition refused (secret : pystr) : Prop :=
  (4096 < length secret)%nat \/ Exists surrogate secret \/ 0%N ∈ secret.

#[global] Instance refused_dec (secret : pystr) : Decision (refused secret).
Proof. unfold refused, surrogate. apply _. Defined.

(** The idealisation of [sha256_crypt]: it raises on the secrets it
    refuses and on no other, and a hash verifies exactly the secret it
    was computed from, whatever its length. *)
Class IdealCryptContext (C : CryptContext) : Prop := {
  ctx_hash_refused :
    forall (salt : N) (p : pystr),
      refused p -> exists e : PyException, ctx_hash salt p = Crash e;
  ctx_hash_accepted :
    forall (salt : N) (p : pystr),
      ~ refused p -> exists h : pwhash, ctx_hash salt p = Return h;
  ctx_verify_refused :
    forall (p : pystr) (h : pwhash),
      refused p -> exists e : PyException, ctx_verify p h = Crash e;
  ctx_verify_hash :
    forall (salt : N) (p q : pystr) (h : pwhash),
      ctx_hash salt q = Return h -> ~ refused p ->
      ctx_verify p h = Return (bool_decide (p = q))
}.

(** The symbolic scheme: a hash is the salt and the secret. The size is
    tested first, then the encoding, then the NUL. *)
Definition too_long (secret : pystr) : bool :=
  (4096 <? N.of_nat (length secret))%N.

Definition has_surrogate (secret : pystr) : bool :=
  existsb (fun c => (0xD800 <=? c)%N && negb (0xDFFF <? c)%N) secret.

Definition has_nul (secret : pystr) : bool := existsb (N.eqb 0) secret.

Definition sym_check (secret : pystr) : option PyException :=
  if too_long secret then Some PasswordSizeError
  else if has_surrogate secret then Some UnicodeEncodeError
  else if has_nul secret then Some ValueError
  else None.

Definition sym_crypt : CryptContext :=
  {| pwhash := N * pystr;
     ctx_hash := fun salt p =>
       match sym_check p with
       | Some e => Crash e
       | None => Return (salt, p)
       end;
     ctx_verify := fun p h =>
       match sym_check p with
       | Some e => Crash e
       | None => Return (bool_decide (p = snd h))
       end |}.

(** The hash the symbolic scheme makes of an accepted secret. *)
Definition sym_hash (salt : N) (secret : pystr) : @pwhash sym_crypt :=
  (salt, secret).

(** ** models.py: the [User] row *)

Section Models.
Context {C : CryptContext}.

Record User := mkUser {
  id : pystr;
  name : option pystr;
  email : pystr;
  email_verified : option Z;
  image : option pystr;
  password_hash : option pwhash;
  created_at : Z;
  updated_at : Z
}.

Definition with_password_hash (self : User) (h : option pwhash) : User :=
  {| id := id self; name := name self; email := email self;
     email_verified := email_verified self; image := image self;
     password_hash := h;
     created_at := created_at self; updated_at := updated_at self |}.

(** [User.set_password]: the row with its new hash, or the exception of
    [password.encode] or of [pwd_context.hash]. *)
Definition set_password (self : User) (salt : N) (password : pystr)
  : outcome User :=
  match utf8_encode password with
  | None => Crash UnicodeEncodeError
  | Some bs =>
      let password :=
        if (72 <? length bs)%nat then take 72 password else password in
      outcome_map (fun h => with_password_hash self (Some h))
        (ctx_hash salt password)
  end.

(** [User.verify_password]: [False] for a row without a hash, and else
    what [pwd_context.verify] returns or raises. *)
Definition verify_password (self : User) (password : pystr) : outcome bool :=
  match password_hash self with
  | None => Return false
  | Some h => ctx_verify password h
  end.

End Models.

(** ** python-jose's [jwt] module *)

(** The payload of the tokens of this service: the keys ["sub"],
    ["user_id"] and ["exp"] of the dict; an absent key is [None]. Times are
    whole seconds. *)
Record Claims := mkClaims {
  sub : option pystr;
  user_id : option pystr;
  exp : option Z
}.

(** Why [jwt.decode] raised. All four are [JWTError] or a subclass of it. *)
Inductive JWTError :=
| SignatureVerificationFailed
| MalformedToken
| ExpiredSignatureError
| JWTClaimsError.

(** [jwt.decode] reads the clock: it is the last argument. *)
Class JOSE := {
  token : Type;
  jwt_encode : Claims -> pystr -> string -> token;
  jwt_decode : token -> pystr -> list string -> Z -> Claims + JWTError
}.

(** The idealisation of an HMAC-signed token: decoding what was encoded
    under the same key gives the payload back until its expiry has
    passed. *)
Class IdealJOSE (J : JOSE) : Prop :=
  jwt_decode_encode :
    forall (c : Claims) (key : pystr) (alg : string) (now : Z),
      jwt_decode (jwt_encode c key alg) key [alg] now =
        match exp c with
        | Some e => if (e <? now)%Z then inr ExpiredSignatureError else inl c
        | None => inl c
        end.

(** The symbolic tokens: a payload signed under a key with an algorithm,
    or a string that is no token at all. *)
Inductive sym_token :=
| Signed (c : Claims) (key : pystr) (alg : string)
| Garbage (s : pystr).

Definition sym_decode (t : sym_token) (key : pystr) (algs : list string)
    (now : Z) : Claims + JWTError :=
  match t with
  | Garbage _ => inr MalformedToken
  | Signed c k alg =>
      if bool_decide (k = key) && bool_decide (alg ∈ algs) then
        match exp c with
        | Some e => if (e <? now)%Z then inr ExpiredSignatureError else inl c
        | None => inl c
        end
      else inr SignatureVerificationFailed
  end.

Definition sym_jose : JOSE :=
  {| token := sym_token; jwt_encode := Signed; jwt_decode := sym_decode |}.

(** ** The table and the session *)

Section Auth.
Context {C : CryptContext}.

Definition ALGORITHM : string := "HS256".
Definition ACCESS_TOKEN_EXPIRE_MINUTES : Z := 30.
Definition ADMIN_EMAIL : pystr := py "admin@test.com".

(** The rows of the [user] table, oldest first. *)
Definition DB : Type := list User.

(** A computation against the table: its result or exception, and the
    table it leaves. *)
Definition M (A : Type) : Type := DB -> outcome A * DB.

Definition ret {A} (a : A) : M A := fun db => (Return a, db).
Definition raise {A} (e : HTTPException) : M A := fun db => (Raise e, db).
Definition crash {A} (e : PyException) : M A := fun db => (Crash e, db).

Definition bind {A B} (m : M A) (k : A -> M B) : M B :=
  fun db =>
    match m db with
    | (Return a, db') => k a db'
    | (Raise e, db') => (Raise e, db')
    | (Crash e, db') => (Crash e, db')
    end.

(** A pure step that may raise, inside a computation. *)
Definition lift {A} (o : outcome A) : M A := fun db => (o, db).

(** [select(User).where(User.email == email)], then [.scalars().first()].
    The driver encodes the string it looks for: one with a lone
    surrogate, which no stored email can be, makes the real query raise.
    The table leaves that out, and the theorems that look up or insert a
    new string take it without a surrogate. *)
Definition select_by_email (email' : pystr) : M (option User) :=
  fun db => (Return (List.find (fun u => bool_decide (email u = email')) db), db).

(** [select(User).where(User.id == user_id)], then [.scalars().first()]. *)
Definition select_by_id (user_id' : pystr) : M (option User) :=
  fun db => (Return (List.find (fun u => bool_decide (id u = user_id')) db), db).

(** [select(User)], then [.scalars().all()]. *)
Definition select_all : M (list User) := fun db => (Return db, db).

(** [session.add(user); await session.commit()] for a new row: the INSERT
    fails on the primary key and on the unique e-mail. *)
Definition session_insert (user : User) : M unit :=
  fun db =>
    if existsb (fun u => bool_decide (id u = id user)
                         || bool_decide (email u = email user)) db
    then (Crash IntegrityError, db)
    else (Return tt, db ++ [user])%list.

(** [session.add(user); await session.commit()] for a loaded row that was
    changed: UPDATE ... WHERE id = ?. *)
Definition session_update (user : User) : M unit :=
  fun db =>
    (Return tt,
     (fun u => if bool_decide (id u = id user) then user else u) <$> db).

(** [await session.delete(user); await session.commit()]:
    DELETE ... WHERE id = ?. *)
Definition session_delete (user : User) : M unit :=
  fun db =>
    (Return tt, List.filter (fun u => negb (bool_decide (id u = id user))) db).

End Auth.

Declare Scope auth_scope.
Delimit Scope auth_scope with auth.
Notation "'let*' x ':=' m 'in' k" := (bind m (fun x => k))
  (at level 10, x name, m at level 100, k at level 200) : auth_scope.
Local Open Scope auth_scope.

(** ** auth.py *)

(** The JSON bodies the endpoints return. *)
Record TokenResponse {J : JOSE} := mkTokenResponse {
  access_token : token;
  token_type : string;
  tr_user_id : pystr;
  tr_email : pystr;
  tr_name : option pystr
}.

Record MeResponse := mkMeResponse {
  me_user_id : pystr;
  me_email : pystr;
  me_name : option pystr;
  me_email_verified : bool
}.

Record UserOut := mkUserOut {
  out_id : pystr;
  out_email : pystr;
  out_name : option pystr
}.

Record Message := mkMessage { message : string }.

Section Endpoints.
Context {C : CryptContext} {J : JOSE}.

(** [SECRET_KEY] is read from the environment when the module loads. *)
Variable SECRET_KEY : pystr.

Definition credentials_exception : HTTPException :=
  mkHTTPException 401 "Could not validate credentials"
    [("WWW-Authenticate", "Bearer")].

Definition get_user_by_email (email' : pystr) : M (option User) :=
  select_by_email email'.

(** The dependency [get_current_user_obj]. Every [JWTError] of
    [jwt.decode] is caught by the one [except JWTError] clause. *)
Definition get_current_user_obj (utcnow : Z) (tok : token) : M User :=
  match jwt_decode tok SECRET_KEY [ALGORITHM] utcnow with
  | inr _ => raise credentials_exception
  | inl payload =>
      match sub payload with
      | None => raise credentials_exception
      | Some email' =>
          let* user := get_user_by_email email' in
          match user with
          | None => raise credentials_exception
          | Some user => ret user
          end
      end
  end.

(** [create_access_token]. A [timedelta] of zero is falsy, as [None] is. *)
Definition create_access_token (data : Claims) (expires_delta : option Z)
    (utcnow : Z) : token :=
  let expire :=
    match expires_delta with
    | Some d => if (d =? 0)%Z then (utcnow + 15 * 60)%Z else (utcnow + d)%Z
    | None => (utcnow + 15 * 60)%Z
    end in
  let to_encode :=
    {| sub := sub data; user_id := user_id data; exp := Some expire |} in
  jwt_encode to_encode SECRET_KEY ALGORITHM.

Definition authenticate_user (email' password : pystr) : M (option User) :=
  let* user := get_user_by_email email' in
  match user with
  | None => ret None
  | Some user =>
      let* verified := lift (verify_password user password) in
      if negb verified then ret None
      else ret (Some user)
  end.

(** POST /auth/token *)
Definition login_for_access_token (utcnow : Z) (username password : pystr)
  : M TokenResponse :=
  let* user := authenticate_user username password in
  match user with
  | None =>
      raise (mkHTTPException 401 "Incorrect email or password"
               [("WWW-Authenticate", "Bearer")])
  | Some user =>
      let access_token_expires := (ACCESS_TOKEN_EXPIRE_MINUTES * 60)%Z in
      let access_token :=
        create_access_token
          {| sub := Some (email user); user_id := Some (id user);
             exp := None |}
          (Some access_token_expires) utcnow in
      ret {| access_token := access_token; token_type := "bearer";
             tr_user_id := id user; tr_email := email user;
             tr_name := name user |}
  end.

(** POST /auth/logout *)
Definition logout : M Message :=
  ret {| message := "Successfully logged out" |}.

(** GET /auth/me *)
Definition get_current_user (utcnow : Z) (tok : token) : M MeResponse :=
  match jwt_decode tok SECRET_KEY [ALGORITHM] utcnow with
  | inr _ => raise credentials_exception
  | inl payload =>
      match sub payload with
      | None => raise credentials_exception
      | Some email' =>
          let* user := get_user_by_email email' in
          match user with
          | None => raise credentials_exception
          | Some user =>
              ret {| me_user_id := id user; me_email := email user;
                     me_name := name user;
                     me_email_verified :=
                       match email_verified user with
                       | Some _ => true
                       | None => false
                       end |}
          end
      end
  end.

(** POST /auth/change-password. The body is a JSON object whose values are
    strings; a key that is absent or null reads as [None]. *)
Definition change_password (utcnow : Z) (salt : N) (tok : token)
    (data : gmap string pystr) : M Message :=
  let* current_user := get_current_user_obj utcnow tok in
  let current_password := data !! "current_password" in
  let new_password := data !! "new_password" in
  if negb (truthy current_password) || negb (truthy new_password) then
    raise (mkHTTPException 400
             "current_password and new_password are required" [])
  else
    let* verified :=
      lift (verify_password current_user (str_of current_password)) in
    if negb verified then
      raise (mkHTTPException 400 "Current password is incorrect" [])
    else
      let* current_user :=
        lift (set_password current_user salt (str_of new_password)) in
      let* _ := session_update current_user in
      ret {| message := "Password changed successfully" |}.

(** GET /users *)
Definition list_users (utcnow : Z) (tok : token) : M (list UserOut) :=
  let* current_user := get_current_user_obj utcnow tok in
  if negb (bool_decide (email current_user = ADMIN_EMAIL)) then
    raise (mkHTTPException 403 "Only admin can manage users" [])
  else
    let* users := select_all in
    ret ((fun u => {| out_id := id u; out_email := email u;
                      out_name := name u |}) <$> users).

(** POST /users. [uuid4] and [now_ms] are what the default factories of
    the new row give for its id and its two timestamps. *)
Definition create_user (utcnow now_ms : Z) (uuid4 : pystr) (salt : N)
    (tok : token) (data : gmap string pystr) : M UserOut :=
  let* current_user := get_current_user_obj utcnow tok in
  if negb (bool_decide (email current_user = ADMIN_EMAIL)) then
    raise (mkHTTPException 403 "Only admin can manage users" [])
  else
    let email' := data !! "email" in
    let name' := data !! "name" in
    let password := data !! "password" in
    if negb (truthy email') || negb (truthy password) then
      raise (mkHTTPException 400 "email and password are required" [])
    else
      let* existing := select_by_email (str_of email') in
      match existing with
      | Some _ => raise (mkHTTPException 400 "Email already exists" [])
      | None =>
          let user :=
            {| id := uuid4; name := name'; email := str_of email';
               email_verified := None; image := None;
               password_hash := None;
               created_at := now_ms; updated_at := now_ms |} in
          let* user := lift (set_password user salt (str_of password)) in
          let* _ := session_insert user in
          ret {| out_id := id user; out_email := email user;
                 out_name := name user |}
      end.

(** DELETE /users/{user_id} *)
Definition delete_user (utcnow : Z) (tok : token) (user_id' : pystr)
  : M Message :=
  let* current_user := get_current_user_obj utcnow tok in
  if negb (bool_decide (email current_user = ADMIN_EMAIL)) then
    raise (mkHTTPException 403 "Only admin can manage users" [])
  else
    let* user := select_by_id user_id' in
    match user with
    | None => raise (mkHTTPException 404 "User not found" [])
    | Some user =>
        if bool_decide (email user = ADMIN_EMAIL) then
          raise (mkHTTPException 400 "Cannot delete admin user" [])
        else
          let* _ := session_delete user in
          ret {| message := "User deleted" |}
    end.

End Endpoints.

(** ** main.py: the admin bootstrap of [lifespan] *)

Section Server.
Context {C : CryptContext} {J : JOSE}.
Variable SECRET_KEY : pystr.

(** [try: ... except Exception as e: print(...)]. *)
Definition try_except (m : M unit) : M unit :=
  fun db =>
    match m db with
    | (Return a, db') => (Return a, db')
    | (_, db') => (Return tt, db')
    end.

(** The block under [if os.getenv("INIT_ADMIN", "true")...]. *)
Definition ensure_admin (now_ms : Z) (uuid4 : pystr) (salt : N) : M unit :=
  try_except
    (let* admin := select_by_email ADMIN_EMAIL in
     match admin with
     | Some _ => ret tt
     | None =>
         let admin :=
           {| id := uuid4; name := Some (py "Admin User");
              email := ADMIN_EMAIL; email_verified := Some now_ms;
              image := None; password_hash := None;
              created_at := now_ms; updated_at := now_ms |} in
         let* admin := lift (set_password admin salt (py "123456")) in
         session_insert admin
     end).

(** ** The service as a transition system *)

(** A request, with what the clock, [uuid4] and the salt generator give
    while it is served. [Startup] is the start of the process, with the
    [INIT_ADMIN] switch. *)
Inductive request :=
| Startup (init_admin : bool) (now_ms : Z) (uuid4 : pystr) (salt : N)
| PostAuthToken (utcnow : Z) (username password : pystr)
| PostAuthLogout
| GetAuthMe (utcnow : Z) (tok : token)
| PostAuthChangePassword (utcnow : Z) (salt : N) (tok : token)
    (data : gmap string pystr)
| GetUsers (utcnow : Z) (tok : token)
| PostUsers (utcnow now_ms : Z) (uuid4 : pystr) (salt : N) (tok : token)
    (data : gmap string pystr)
| DeleteUsers (utcnow : Z) (tok : token) (user_id' : pystr).

(** The table after a request. *)
Definition serve (r : request) (db : DB) : DB :=
  match r with
  | Startup init_admin now_ms uuid4 salt =>
      if init_admin then snd (ensure_admin now_ms uuid4 salt db) else db
  | PostAuthToken utcnow username password =>
      snd (login_for_access_token SECRET_KEY utcnow username password db)
  | PostAuthLogout => snd (logout db)
  | GetAuthMe utcnow tok => snd (get_current_user SECRET_KEY utcnow tok db)
  | PostAuthChangePassword utcnow salt tok data =>
      snd (change_password SECRET_KEY utcnow salt tok data db)
  | GetUsers utcnow tok => snd (list_users SECRET_KEY utcnow tok db)
  | PostUsers utcnow now_ms uuid4 salt tok data =>
      snd (create_user SECRET_KEY utcnow now_ms uuid4 salt tok data db)
  | DeleteUsers utcnow tok user_id' =>
      snd (delete_user SECRET_KEY utcnow tok user_id' db)
  end.

(** The table after a sequence of requests, served in order. *)
Definition run (rs : list request) (db : DB) : DB :=
  fold_left (fun db r => serve r db) rs db.

End Server.

(** ** The error taxonomy of the specification *)

Inductive ErrorKind :=
| InvalidCredentials
| Forbidden
| ValidationError
| NotFoundError.

(** The specification names a failure by the status it is surfaced as:
    unauthorized, forbidden, bad request, not found. *)
Definition spec_error_kind (e : HTTPException) : option ErrorKind :=
  if (status_code e =? 401)%Z then Some InvalidCredentials
  else if (status_code e =? 403)%Z then Some Forbidden
  else if (status_code e =? 400)%Z then Some ValidationError
  else if (status_code e =? 404)%Z then Some NotFoundError
  else None.

(** The 403 of the three admin-only endpoints. *)
Definition forbidden : HTTPException :=
  mkHTTPException 403 "Only admin can manage users" [].

(** The 401 of a failed login. *)
Definition incorrect_login : HTTPException :=
  mkHTTPException 401 "Incorrect email or password"
    [("WWW-Authenticate", "Bearer")].

(** The primary key of the table: no two rows share an id. *)
Definition primary_key {C : CryptContext} (db : DB) : Prop :=
  NoDup (id <$> db).

(** A row of the distinguished admin account. *)
Definition is_admin {C : CryptContext} (u : User) : Prop :=
  email u = ADMIN_EMAIL.

(** The body of a successful login at [utcnow] as the user of a row. *)
Definition login_response {C : CryptContext} {J : JOSE} (SECRET_KEY : pystr)
    (utcnow : Z) (user : User) : TokenResponse :=
  {| access_token :=
       jwt_encode
         {| sub := Some (email user); user_id := Some (id user);
            exp := Some (utcnow + 1800)%Z |} SECRET_KEY ALGORITHM;
     token_type := "bearer"; tr_user_id := id user;
     tr_email := email user; tr_name := name user |}.

(** The unique constraint on the [email] column. *)
Definition unique_email {C : CryptContext} (db : DB) : Prop :=
  NoDup (email <$> db).

(** ** init_admin.py *)

(** [create_admin_user]: the bootstrap as a script, with no handler around
    it. *)
Definition create_admin_user {C : CryptContext} (now_ms : Z) (uuid4 : pystr)
    (salt : N) : M unit :=
  let email' := py "admin@test.com" in
  let password := py "123456" in
  let name' := py "Admin User" in
  let* existing_user := select_by_email email' in
  match existing_user with
  | Some _ => ret tt
  | None =>
      let admin_user :=
        {| id := uuid4; name := Some name'; email := email';
           email_verified := Some now_ms; image := None;
           password_hash := None;
           created_at := now_ms; updated_at := now_ms |} in
      let* admin_user := lift (set_password admin_user salt password) in
      let* _ := session_insert admin_user in
      ret tt
  end.

(** ** init_db.py *)

(** [reset_database]: [drop_all] then [create_all] leaves the table
    empty. *)
Definition reset_database {C : CryptContext} : M unit :=
  fun _ => (Return tt, []).

(** ** A small world to run the service in *)

Definition ex_secret : pystr := py "s3cret".

Definition ex_admin : @User sym_crypt :=
  {| id := py "u-admin"; name := Some (py "Admin User");
     email := py "admin@test.com"; email_verified := Some 1000%Z;
     image := None; password_hash := Some (sym_hash 1 (py "123456"));
     created_at := 1000%Z; updated_at := 1000%Z |}.

Definition ex_bob : @User sym_crypt :=
  {| id := py "u-bob"; name := Some (py "Bob");
     email := py "bob@test.com"; email_verified := None;
     image := None; password_hash := Some (sym_hash 2 (py "hunter2"));
     created_at := 2000%Z; updated_at := 2000%Z |}.

(** A row created without a password. *)
Definition ex_carol : @User sym_crypt :=
  {| id := py "u-carol"; name := None;
     email := py "carol@test.com"; email_verified := None;
     image := None; password_hash := None;
     created_at := 3000%Z; updated_at := 3000%Z |}.

Definition ex_db : @DB sym_crypt := [ex_admin; ex_bob; ex_carol].

Definition ex_token_for (u : @User sym_crypt) (expire : Z) : sym_token :=
  Signed {| sub := Some (email u); user_id := Some (id u);
            exp := Some expire |} ex_secret ALGORITHM.

Definition ex_admin_token : sym_token := ex_token_for ex_admin 5000.
Definition ex_bob_token : sym_token := ex_token_for ex_bob 5000.

(** Request bodies. *)
Definition ex_wrong_current_body : gmap string pystr :=
  {[ "current_password" := py "wrong"; "new_password" := py "n3w-pass" ]}.

Definition ex_no_new_password_body : gmap string pystr :=
  {[ "current_password" := py "wrong" ]}.

Definition ex_taken_email_body : gmap string pystr :=
  {[ "email" := py "bob@test.com"; "name" := py "Bobby";
     "password" := py "pw" ]}.

Definition ex_taken_email_no_password_body : gmap string pystr :=
  {[ "email" := py "bob@test.com"; "name" := py "Bobby" ]}.

(** The admin deletes bob, tries to delete the admin row, and changes the
    admin password. *)
Definition ex_requests : list (@request sym_jose) :=
  [@DeleteUsers sym_jose 3000 ex_admin_token (id ex_bob);
   @DeleteUsers sym_jose 3000 ex_admin_token (id ex_admin);
   @PostAuthChangePassword sym_jose 3000 9 ex_admin_token
     {[ "current_password" := py "123456";
        "new_password" := py "654321" ]}].

Definition ex_carol_token : sym_token := ex_token_for ex_carol 5000.

Definition ex_new_user_body : gmap string pystr :=
  {[ "email" := py "dave@test.com"; "name" := py "Dave";
     "password" := py "d4ve-pass" ]}.

Definition ex_empty_password_body : gmap string pystr :=
  {[ "email" := py "dave@test.com"; "password" := py "" ]}.

Definition ex_bob_change_body : gmap string pystr :=
  {[ "current_password" := py "hunter2";
     "new_password" := py "tr0ub4dor" ]}.

(** Dave's row, as POST /users with [ex_new_user_body] makes it. *)
Definition ex_dave : @User sym_crypt :=
  {| id := py "u-dave"; name := Some (py "Dave");
     email := py "dave@test.com"; email_verified := None;
     image := None;
     password_hash := Some (sym_hash 7 (py "d4ve-pass"));
     created_at := 9000%Z; updated_at := 9000%Z |}.

(** What bob's login at 3000 returns. *)
Definition ex_bob_login : @TokenResponse sym_jose :=
  @mkTokenResponse sym_jose (ex_token_for ex_bob 4800) "bearer" (id ex_bob)
    (email ex_bob) (name ex_bob).

(** The admin row the startup makes at 500 with id u-root and salt 3. *)
Definition ex_root : @User sym_crypt :=
  {| id := py "u-root"; name := Some (py "Admin User");
     email := py "admin@test.com"; email_verified := Some 500%Z;
     image := None;
     password_hash := Some (sym_hash 3 (py "123456"));
     created_at := 500%Z; updated_at := 500%Z |}.

(** What a request can do to the table: nothing, one INSERT of a row with
    a fresh id, one UPDATE of the password hash of a row, or one DELETE of
    a row that is not an admin row. *)
Inductive effect {C : CryptContext} (db : DB) : DB -> Prop :=
| effect_none : effect db db
| effect_insert (user : User) :
    id user ∉ id <$> db -> effect db (db ++ [user])
| effect_update (user : User) (h : option pwhash) :
    user ∈ db ->
    effect db ((fun u => if bool_decide (id u = id user)
                         then with_password_hash user h else u) <$> db)
| effect_delete (user : User) :
    user ∈ db -> email user <> ADMIN_EMAIL ->
    effect db (List.filter (fun u => negb (bool_decide (id u = id user))) db).

(** Unfolds the monad and the session primitives. *)
Ltac unfold_m :=
  unfold bind, ret, raise, crash, lift, get_user_by_email, select_by_email,
    select_by_id, select_all, session_insert, session_update,
    session_delete, try_except in *.

(** * Properties *)

(** ** The symbolic instances are ideal *)

Lemma sym_check_refused (secret : pystr) :
  refused secret <-> exists e, sym_check secret = Some e.
Proof.
  unfold refused, sym_check, too_long, has_surrogate, has_nul.
  destruct (N.ltb_spec 4096 (N.of_nat (length secret))) as [Hlen|Hlen];
    [split; [eauto | intros _; left; lia]|].
  destruct (existsb _ secret) eqn:Hsur.
  - split; [eauto|]. intros _. right; left.
    apply existsb_exists in Hsur as (c & Hc & Hsur).
    apply Exists_exists. exists c. split; [apply list_elem_of_In, Hc|].
    unfold surrogate. apply andb_true_iff in Hsur as [H1 H2].
    apply N.leb_le in H1. apply negb_true_iff, N.ltb_ge in H2. lia.
  - destruct (existsb (N.eqb 0) secret) eqn:Hnul.
    + split; [eauto|]. intros _. right; right.
      apply existsb_exists in Hnul as (c & Hc & Hnul).
      apply N.eqb_eq in Hnul. subst c. apply list_elem_of_In, Hc.
    + split; [|intros [e [=]]].
      intros [Hlong|[Hs|Hn]]; [lia| |]; exfalso.
      * apply Exists_exists in Hs as (c & Hc & Hs).
        apply not_true_iff_false in Hsur. apply Hsur.
        apply existsb_exists. exists c.
        split; [apply list_elem_of_In, Hc|]. unfold surrogate in Hs.
        apply andb_true_iff. split;
          [apply N.leb_le | apply negb_true_iff, N.ltb_ge]; lia.
      * apply not_true_iff_false in Hnul. apply Hnul.
        apply existsb_exists. exists 0%N.
        split; [apply list_elem_of_In, Hn | reflexivity].
Qed.

Lemma sym_crypt_ideal : IdealCryptContext sym_crypt.
Proof.
  split.
  - intros salt p Hp. apply sym_check_refused in Hp as [e He].
    cbn. rewrite He. eauto.
  - intros salt p Hp. cbn. destruct (sym_check p) as [e|] eqn:He; [|eauto].
    destruct Hp. apply sym_check_refused. eauto.
  - intros p h Hp. apply sym_check_refused in Hp as [e He].
    cbn. rewrite He. eauto.
  - intros salt p q h. cbn. destruct (sym_check q); [discriminate|].
    intros [= <-] Hp. destruct (sym_check p) as [e|] eqn:He; [|reflexivity].
    destruct Hp. apply sym_check_refused. eauto.
Qed.

Lemma sym_jose_ideal : IdealJOSE sym_jose.
Proof.
  intros c key alg now. cbn. unfold sym_decode.
  rewrite bool_decide_eq_true_2 by reflexivity.
  rewrite bool_decide_eq_true_2 by apply list_elem_of_here.
  reflexivity.
Qed.

(** ** The password methods *)

Section PasswordFacts.
Context {C : CryptContext}.

Lemma utf8_encode_ascii (s : pystr) :
  Forall (fun c => (c < 0x80)%N) s -> utf8_encode s = Some s.
Proof.
  induction 1 as [|c s Hc _ IH]; [reflexivity|].
  cbn [utf8_encode]. unfold utf8_encode_char.
  apply N.ltb_lt in Hc. rewrite Hc, IH. reflexivity.
Qed.

Lemma set_password_short (u : User) (salt : N) (p bs : pystr) :
  utf8_encode p = Some bs -> (length bs <= 72)%nat ->
  set_password u salt p =
    outcome_map (fun h => with_password_hash u (Some h)) (ctx_hash salt p).
Proof.
  intros Hbs Hlen. unfold set_password. rewrite Hbs.
  destruct (Nat.ltb_spec 72 (length bs)); [lia | reflexivity].
Qed.

Lemma set_password_long (u : User) (salt : N) (p bs : pystr) :
  utf8_encode p = Some bs -> (72 < length bs)%nat ->
  set_password u salt p =
    outcome_map (fun h => with_password_hash u (Some h))
      (ctx_hash salt (take 72 p)).
Proof.
  intros Hbs Hlen. unfold set_password. rewrite Hbs.
  destruct (Nat.ltb_spec 72 (length bs)); [reflexivity | lia].
Qed.

Lemma verify_with_password_hash (u : User) (h : pwhash) (p : pystr) :
  verify_password (with_password_hash u (Some h)) p = ctx_verify p h.
Proof. reflexivity. Qed.

(** A string of letters is no secret passlib refuses, up to 4096 of
    them. *)
Lemma letters_accepted (s : pystr) :
  (length s <= 4096)%nat -> Forall (fun c => (0 < c < 0x80)%N) s ->
  ~ refused s.
Proof.
  intros Hlen Hs [Hlong|[Hsur|Hnul]]; [lia| |].
  - apply Exists_exists in Hsur as (c & Hc & Hsur).
    rewrite Forall_forall in Hs. specialize (Hs c Hc).
    unfold surrogate in Hsur. lia.
  - rewrite Forall_forall in Hs. specialize (Hs _ Hnul). lia.
Qed.

Context {IC : IdealCryptContext C}.

(** Within 72 bytes the two methods agree: the password that was set
    verifies, and no other password that passlib accepts does. *)
Lemma verify_after_set_short (u u' : User) (salt : N) (p q bs : pystr) :
  utf8_encode p = Some bs -> (length bs <= 72)%nat ->
  set_password u salt p = Return u' ->
  ~ refused q ->
  verify_password u' q = Return (bool_decide (q = p)).
Proof.
  intros Hbs Hlen Hset Hq.
  rewrite (set_password_short u salt p bs Hbs Hlen) in Hset.
  destruct (ctx_hash salt p) as [h| |] eqn:Hh; try discriminate.
  injection Hset as <-.
  rewrite verify_with_password_hash. exact (ctx_verify_hash salt q p h Hh Hq).
Qed.

(** C4, at a password of 73 letters: [set_password] stores the hash of
    the first 72 characters, and [verify_password], which does not
    truncate, then rejects the very password that was set. *)
Theorem set_password_then_verify_long_fails (u : User) (salt : N) :
  exists (u' : User) (h : pwhash),
    ctx_hash salt (replicate 72 97%N) = Return h /\
    set_password u salt (replicate 73 97%N) = Return u' /\
    password_hash u' = Some h /\
    verify_password u' (replicate 73 97%N) = Return false /\
    verify_password u' (replicate 72 97%N) = Return true.
Proof.
  assert (Hacc : forall n, (n <= 4096)%nat -> ~ refused (replicate n 97%N)).
  { intros n Hn. apply letters_accepted.
    - rewrite length_replicate. exact Hn.
    - apply Forall_replicate. lia. }
  destruct (ctx_hash_accepted salt _ (Hacc 72%nat ltac:(lia))) as [h Hh].
  exists (with_password_hash u (Some h)), h.
  split; [exact Hh|]. split; [|split; [reflexivity|]].
  - rewrite (set_password_long u salt _ (replicate 73 97%N)).
    + change (take 72 (replicate 73 97%N)) with (replicate 72 97%N).
      rewrite Hh. reflexivity.
    + apply utf8_encode_ascii. apply Forall_replicate. reflexivity.
    + rewrite length_replicate. lia.
  - rewrite !verify_with_password_hash.
    rewrite (ctx_verify_hash salt _ _ h Hh (Hacc 73%nat ltac:(lia))).
    rewrite (ctx_verify_hash salt _ _ h Hh (Hacc 72%nat ltac:(lia))).
    split; reflexivity.
Qed.

(** C5, at two kinds of input. A password of 36 two-byte characters and
    one letter encodes to 73 bytes, yet [password[:72]] keeps all its 37
    characters: it is hashed whole, and its twin that differs only in
    the 73rd byte gets another hash. Two passwords of 73 letters that
    agree on the first 72 do get one hash, but [verify_password] accepts
    neither of them against it. *)
Theorem set_password_truncates_characters_verify_does_not
    (u : User) (salt : N) :
  let q1 := (replicate 36 0xE9 ++ [97])%N in
  let q2 := (replicate 36 0xE9 ++ [98])%N in
  let p1 := (replicate 72 97 ++ [98])%N in
  let p2 := (replicate 72 97 ++ [99])%N in
  (length <$> utf8_encode q1 = Some 73%nat /\
   take 72 <$> utf8_encode q1 = take 72 <$> utf8_encode q2 /\
   exists h1 h2 : pwhash,
     ctx_hash salt q1 = Return h1 /\ ctx_hash salt q2 = Return h2 /\
     set_password u salt q1 = Return (with_password_hash u (Some h1)) /\
     set_password u salt q2 = Return (with_password_hash u (Some h2)) /\
     h1 <> h2) /\
  (exists u' : User,
     set_password u salt p1 = Return u' /\
     set_password u salt p2 = Return u' /\
     verify_password u' p1 = Return false /\
     verify_password u' p2 = Return false).
Proof.
  intros q1 q2 p1 p2.
  assert (Hq1 : utf8_encode q1 = Some (concat (replicate 36 [195; 169]) ++ [97])%N)
    by (vm_compute; reflexivity).
  assert (Hq2 : utf8_encode q2 = Some (concat (replicate 36 [195; 169]) ++ [98])%N)
    by (vm_compute; reflexivity).
  assert (Haq1 : ~ refused q1)
    by (apply (bool_decide_unpack _); vm_compute; exact I).
  assert (Haq2 : ~ refused q2)
    by (apply (bool_decide_unpack _); vm_compute; exact I).
  split.
  - split; [rewrite Hq1; vm_compute; reflexivity|].
    split; [rewrite Hq1, Hq2; vm_compute; reflexivity|].
    destruct (ctx_hash_accepted salt q1 Haq1) as [h1 Hh1].
    destruct (ctx_hash_accepted salt q2 Haq2) as [h2 Hh2].
    exists h1, h2. split; [exact Hh1|]. split; [exact Hh2|].
    unfold set_password. rewrite Hq1, Hq2.
    change (if (72 <? _)%nat then take 72 q1 else q1) with q1.
    change (if (72 <? _)%nat then take 72 q2 else q2) with q2.
    rewrite Hh1, Hh2.
    split; [reflexivity|]. split; [reflexivity|].
    intros Heq. subst h2.
    pose proof (ctx_verify_hash salt q1 q1 h1 Hh1 Haq1) as H1.
    pose proof (ctx_verify_hash salt q1 q2 h1 Hh2 Haq1) as H2.
    rewrite H1 in H2. vm_compute in H2. discriminate H2.
  - assert (Hacc : forall s : pystr,
              (length s <= 4096)%nat ->
              Forall (fun c => (0 < c < 0x80)%N) s -> ~ refused s)
      by exact letters_accepted.
    assert (Hletters : forall c : N, (0 < c < 0x80)%N ->
              Forall (fun c => (0 < c < 0x80)%N) (replicate 72 97 ++ [c])%N).
    { intros c Hc. apply Forall_app. split.
      - apply Forall_replicate. lia.
      - constructor; [exact Hc | constructor]. }
    assert (Ha72 : ~ refused (replicate 72 97%N)).
    { apply Hacc; [rewrite length_replicate; lia|].
      apply Forall_replicate. lia. }
    destruct (ctx_hash_accepted salt _ Ha72) as [h Hh].
    exists (with_password_hash u (Some h)).
    assert (Hasc : forall c, (c < 0x80)%N ->
              utf8_encode (replicate 72 97 ++ [c])%N =
                Some (replicate 72 97 ++ [c])%N).
    { intros c Hc. apply utf8_encode_ascii. apply Forall_app. split.
      - apply Forall_replicate. reflexivity.
      - constructor; [exact Hc | constructor]. }
    assert (Htake : forall c : N,
              take 72 (replicate 72 97 ++ [c])%N = replicate 72 97%N).
    { intros c. rewrite take_app_length'; [reflexivity|].
      symmetry. apply length_replicate. }
    assert (Hne : forall c : N, (replicate 72 97 ++ [c])%N <> replicate 72 97%N).
    { intros c Heq. apply (f_equal length) in Heq. revert Heq.
      rewrite length_app, !length_replicate. cbn. lia. }
    assert (Hlen : forall c : N,
              (length (replicate 72 97 ++ [c])%N <= 4096)%nat).
    { intros c. rewrite length_app, length_replicate. cbn. lia. }
    split; [|split; [|split]].
    + rewrite (set_password_long u salt p1 p1); unfold p1.
      * rewrite Htake, Hh. reflexivity.
      * apply Hasc. reflexivity.
      * rewrite length_app, length_replicate. cbn. lia.
    + rewrite (set_password_long u salt p2 p2); unfold p2.
      * rewrite Htake, Hh. reflexivity.
      * apply Hasc. reflexivity.
      * rewrite length_app, length_replicate. cbn. lia.
    + rewrite verify_with_password_hash.
      rewrite (ctx_verify_hash salt p1 _ h Hh);
        [|apply Hacc; [apply Hlen | apply Hletters; lia]].
      unfold p1, p2. rewrite bool_decide_eq_false_2 by apply Hne.
      reflexivity.
    + rewrite verify_with_password_hash.
      rewrite (ctx_verify_hash salt p2 _ h Hh);
        [|apply Hacc; [apply Hlen | apply Hletters; lia]].
      unfold p1, p2. rewrite bool_decide_eq_false_2 by apply Hne.
      reflexivity.
Qed.

End PasswordFacts.

(** ** The table under the requests *)

Section TableFacts.
Context {C : CryptContext} {J : JOSE}.
Variable SECRET_KEY : pystr.

Lemma get_current_user_obj_cases (utcnow : Z) (tok : token) (db : DB) :
  get_current_user_obj SECRET_KEY utcnow tok db =
    (Raise credentials_exception, db) \/
  exists (payload : Claims) (email' : pystr) (user : User),
    jwt_decode tok SECRET_KEY [ALGORITHM] utcnow = inl payload /\
    sub payload = Some email' /\
    List.find (fun u => bool_decide (email u = email')) db = Some user /\
    get_current_user_obj SECRET_KEY utcnow tok db = (Return user, db).
Proof.
  unfold get_current_user_obj.
  destruct (jwt_decode tok SECRET_KEY [ALGORITHM] utcnow) as [payload|e];
    [|left; reflexivity].
  destruct (sub payload) as [email'|] eqn:Hsub; [|left; reflexivity].
  unfold bind, get_user_by_email, select_by_email.
  destruct (List.find _ db) as [user|] eqn:Hfind; [|left; reflexivity].
  right. exists payload, email', user. auto.
Qed.

Lemma find_elem_of {A} (f : A -> bool) (l : list A) (x : A) :
  List.find f l = Some x -> x ∈ l /\ f x = true.
Proof.
  intros H. apply find_some in H as [Hin Hf].
  split; [apply list_elem_of_In, Hin | exact Hf].
Qed.

Lemma existsb_false_id (user : User) (db : DB) :
  existsb (fun u => bool_decide (id u = id user)
                    || bool_decide (email u = email user)) db = false ->
  id user ∉ id <$> db.
Proof.
  intros Hex Hin. apply list_elem_of_fmap in Hin as (u & Hid & Hu).
  apply not_true_iff_false in Hex. apply Hex.
  apply existsb_exists. exists u. split; [apply list_elem_of_In, Hu|].
  rewrite Hid, bool_decide_eq_true_2 by reflexivity. reflexivity.
Qed.

Lemma set_password_Return (u u' : User) (salt : N) (p : pystr) :
  set_password u salt p = Return u' ->
  exists h, u' = with_password_hash u (Some h).
Proof.
  unfold set_password. destruct (utf8_encode p); [|discriminate].
  destruct (ctx_hash salt _); cbn [outcome_map]; [|discriminate..].
  intros [= <-]. eauto.
Qed.

Lemma serve_effect (r : request) (db : DB) : effect db (serve SECRET_KEY r db).
Proof.
  destruct r; cbn [serve].
  - destruct init_admin; [|constructor].
    unfold ensure_admin. unfold_m.
    repeat case_match; simplify_eq/=; try constructor.
    apply existsb_false_id. assumption.
  - unfold login_for_access_token, authenticate_user. unfold_m.
    repeat case_match; simplify_eq/=; constructor.
  - constructor.
  - unfold get_current_user. unfold_m.
    repeat case_match; simplify_eq/=; constructor.
  - unfold change_password, bind.
    destruct (get_current_user_obj_cases utcnow tok db)
      as [->|(payload & em & actor & _ & _ & Hfind & ->)]; [constructor|].
    unfold_m.
    repeat case_match; simplify_eq/=; try constructor.
    match goal with
    | H : set_password _ _ _ = Return _ |- _ =>
        apply set_password_Return in H as [h ->]
    end.
    apply (effect_update db actor (Some h)).
    apply (find_elem_of _ _ _ Hfind).
  - unfold list_users, bind.
    destruct (get_current_user_obj_cases utcnow tok db)
      as [->|(payload & em & actor & _ & _ & _ & ->)]; [constructor|].
    unfold_m.
    repeat case_match; simplify_eq/=; constructor.
  - unfold create_user, bind.
    destruct (get_current_user_obj_cases utcnow tok db)
      as [->|(payload & em & actor & _ & _ & _ & ->)]; [constructor|].
    unfold_m.
    repeat case_match; simplify_eq/=; try constructor.
    apply existsb_false_id. assumption.
  - unfold delete_user, bind.
    destruct (get_current_user_obj_cases utcnow tok db)
      as [->|(payload & em & actor & _ & _ & _ & ->)]; [constructor|].
    unfold_m.
    repeat case_match; simplify_eq/=; try constructor.
    + match goal with
      | H : List.find _ _ = Some _ |- _ => apply (find_elem_of _ _ _ H)
      end.
    + match goal with
      | H : bool_decide _ = false |- _ => apply bool_decide_eq_false_1 in H
      end.
      assumption.
Qed.

Lemma primary_key_inj (db : DB) (a b : User) :
  primary_key db -> a ∈ db -> b ∈ db -> id a = id b -> a = b.
Proof.
  unfold primary_key. induction db as [|u db IH]; intros Hnd Ha Hb Hid.
  - inversion Ha.
  - rewrite fmap_cons in Hnd. apply NoDup_cons in Hnd as [Hu Hnd].
    apply elem_of_cons in Ha as [->|Ha]; apply elem_of_cons in Hb as [->|Hb].
    + reflexivity.
    + exfalso. apply Hu. rewrite Hid. apply list_elem_of_fmap. eauto.
    + exfalso. apply Hu. rewrite <- Hid. apply list_elem_of_fmap. eauto.
    + apply IH; assumption.
Qed.

Lemma effect_primary_key (db db' : DB) :
  effect db db' -> primary_key db -> primary_key db'.
Proof.
  unfold primary_key. intros [|user Hfresh|user h Hin|user Hin Hne] Hnd.
  - exact Hnd.
  - rewrite fmap_app. apply NoDup_app. split; [exact Hnd|]. split.
    + intros x Hx Hx'. apply list_elem_of_singleton in Hx'. subst x.
      exact (Hfresh Hx).
    + apply NoDup_singleton.
  - rewrite <- list_fmap_compose.
    erewrite list_fmap_ext; [exact Hnd|].
    intros i u _. cbn. case_bool_decide; [symmetry; assumption | reflexivity].
  - clear Hin Hne. induction db as [|u db IH]; [exact Hnd|].
    rewrite fmap_cons in Hnd. apply NoDup_cons in Hnd as [Hu Hnd].
    cbn [List.filter]. destruct (negb _); [|apply IH, Hnd].
    rewrite fmap_cons. apply NoDup_cons. split; [|apply IH, Hnd].
    intros Hin. apply Hu.
    apply list_elem_of_fmap in Hin as (v & Hv & Hvin).
    apply list_elem_of_fmap. exists v. split; [exact Hv|].
    apply list_elem_of_In. apply list_elem_of_In, filter_In in Hvin.
    apply Hvin.
Qed.

Lemma effect_keeps_admin (db db' : DB) (a : User) :
  effect db db' -> primary_key db -> a ∈ db -> is_admin a ->
  exists a', a' ∈ db' /\ id a' = id a /\ is_admin a'.
Proof.
  intros [|user Hfresh|user h Hin|user Hin Hne] Hpk Ha Hadm.
  - eauto.
  - exists a. split; [apply elem_of_app; left; exact Ha | auto].
  - destruct (decide (id a = id user)) as [Heq|Hneq].
    + assert (a = user) as -> by (eapply primary_key_inj; eassumption).
      exists (with_password_hash user h). split; [|split; [reflexivity|exact Hadm]].
      apply list_elem_of_fmap. exists user. split; [|exact Ha].
      rewrite bool_decide_eq_true_2 by reflexivity. reflexivity.
    + exists a. split; [|auto].
      apply list_elem_of_fmap. exists a. split; [|exact Ha].
      rewrite bool_decide_eq_false_2 by exact Hneq. reflexivity.
  - exists a. split; [|auto].
    apply list_elem_of_In, filter_In. split; [apply list_elem_of_In, Ha|].
    apply negb_true_iff, bool_decide_eq_false_2. intros Heq.
    apply Hne. assert (a = user) as <- by (eapply primary_key_inj; eassumption).
    exact Hadm.
Qed.

Lemma run_keeps_admin (rs : list request) (db : DB) (a : User) :
  primary_key db -> a ∈ db -> is_admin a ->
  primary_key (run SECRET_KEY rs db) /\
  exists a', a' ∈ run SECRET_KEY rs db /\ id a' = id a /\ is_admin a'.
Proof.
  revert db a. induction rs as [|r rs IH]; intros db a Hpk Ha Hadm.
  - cbn. eauto.
  - cbn [run fold_left].
    pose proof (serve_effect r db) as Heff.
    destruct (effect_keeps_admin _ _ a Heff Hpk Ha Hadm) as (a1 & Ha1 & Hid1 & Hadm1).
    destruct (IH (serve SECRET_KEY r db) a1
                (effect_primary_key _ _ Heff Hpk) Ha1 Hadm1)
      as (Hpk' & a' & Ha' & Hid' & Hadm').
    split; [exact Hpk'|]. exists a'. split; [exact Ha'|].
    split; [congruence | exact Hadm'].
Qed.

End TableFacts.

(** ** Authorisation and error precedence *)

Section EndpointFacts.
Context {C : CryptContext} {J : JOSE}.
Variable SECRET_KEY : pystr.

Lemma get_current_user_obj_db (utcnow : Z) (tok : token) (db : DB) :
  snd (get_current_user_obj SECRET_KEY utcnow tok db) = db.
Proof.
  destruct (get_current_user_obj_cases SECRET_KEY utcnow tok db)
    as [->|(? & ? & ? & _ & _ & _ & ->)]; reflexivity.
Qed.

Lemma find_none_id (db : DB) (user_id' : pystr) :
  user_id' ∉ id <$> db ->
  List.find (fun u => bool_decide (id u = user_id')) db = None.
Proof.
  intros Hnot. destruct (List.find _ db) as [u|] eqn:Hfind; [|reflexivity].
  apply find_elem_of in Hfind as [Hin Hid].
  apply bool_decide_eq_true_1 in Hid. exfalso. apply Hnot.
  apply list_elem_of_fmap. eauto.
Qed.

Lemma find_none_email (db : DB) (email' : pystr) :
  (forall u, u ∈ db -> email u <> email') ->
  List.find (fun u => bool_decide (email u = email')) db = None.
Proof.
  intros Habsent. destruct (List.find _ db) as [u|] eqn:Hfind; [|reflexivity].
  apply find_elem_of in Hfind as [Hin Hem].
  apply bool_decide_eq_true_1 in Hem. destruct (Habsent u Hin Hem).
Qed.

Lemma find_id_primary_key (db : DB) (a : User) :
  primary_key db -> a ∈ db ->
  List.find (fun u => bool_decide (id u = id a)) db = Some a.
Proof.
  intros Hpk Ha.
  destruct (List.find _ db) as [u|] eqn:Hfind.
  - apply find_elem_of in Hfind as [Hin Hid].
    apply bool_decide_eq_true_1 in Hid.
    f_equal. eapply primary_key_inj; eassumption.
  - exfalso. apply list_elem_of_In in Ha.
    pose proof (find_none _ _ Hfind a Ha) as Hf. cbn in Hf.
    rewrite bool_decide_eq_true_2 in Hf by reflexivity. discriminate Hf.
Qed.

(** C1: in a table that holds an admin row, that row is still there
    (same id, same email) after any sequence of requests; and DELETE
    /users/{id} by the admin on the id of an admin row is refused with
    400 "Cannot delete admin user" and leaves the table as it was. *)
Theorem admin_row_is_never_deleted (db : DB) (a : User) :
  primary_key db -> a ∈ db -> is_admin a ->
  (forall rs : list request,
     exists a', a' ∈ run SECRET_KEY rs db /\ id a' = id a /\ is_admin a') /\
  (forall (utcnow : Z) (tok : token) (actor : User),
     get_current_user_obj SECRET_KEY utcnow tok db = (Return actor, db) ->
     is_admin actor ->
     let refused := mkHTTPException 400 "Cannot delete admin user" [] in
     delete_user SECRET_KEY utcnow tok (id a) db = (Raise refused, db) /\
     spec_error_kind refused = Some ValidationError /\
     a ∈ serve SECRET_KEY (DeleteUsers utcnow tok (id a)) db).
Proof.
  intros Hpk Ha Hadm. split.
  - intros rs. apply (run_keeps_admin SECRET_KEY rs db a Hpk Ha Hadm).
  - intros utcnow tok actor Hactor Hactor_adm refused.
    assert (Hdel : delete_user SECRET_KEY utcnow tok (id a) db =
                     (Raise refused, db)).
    { unfold delete_user, bind. rewrite Hactor.
      rewrite (bool_decide_eq_true_2 _ Hactor_adm). cbn [negb].
      unfold select_by_id. rewrite (find_id_primary_key db a Hpk Ha).
      rewrite (bool_decide_eq_true_2 _ Hadm). reflexivity. }
    split; [exact Hdel|]. split; [reflexivity|].
    cbn [serve]. rewrite Hdel. exact Ha.
Qed.

(** C2: an actor whose email is not admin@test.com gets 403 from GET
    /users, POST /users and DELETE /users/{id}, whatever the input, and
    the table is left as it was. *)
Theorem non_admin_is_forbidden (utcnow : Z) (tok : token) (db : DB)
    (actor : User) :
  get_current_user_obj SECRET_KEY utcnow tok db = (Return actor, db) ->
  email actor <> ADMIN_EMAIL ->
  spec_error_kind forbidden = Some Forbidden /\
  list_users SECRET_KEY utcnow tok db = (Raise forbidden, db) /\
  (forall (now_ms : Z) (uuid4 : pystr) (salt : N) (data : gmap string pystr),
     create_user SECRET_KEY utcnow now_ms uuid4 salt tok data db =
       (Raise forbidden, db)) /\
  (forall user_id' : pystr,
     delete_user SECRET_KEY utcnow tok user_id' db = (Raise forbidden, db)).
Proof.
  intros Hactor Hne. split; [reflexivity|].
  unfold list_users, create_user, delete_user, bind. rewrite Hactor.
  rewrite (bool_decide_eq_false_2 _ Hne). cbn [negb].
  repeat split.
Qed.

(** C10: the order of the checks. A non-admin actor gets 403 from POST
    /users whatever the body holds, and from DELETE /users/{id} whatever
    the id; the admin gets 404 for an id that is not in the table; and a
    change-password body with a field missing gets the 400 of the missing
    field, whatever the current password is. *)
Theorem error_precedence (utcnow : Z) (tok : token) (db : DB) (actor : User) :
  get_current_user_obj SECRET_KEY utcnow tok db = (Return actor, db) ->
  (email actor <> ADMIN_EMAIL ->
     (forall (now_ms : Z) (uuid4 : pystr) (salt : N)
             (data : gmap string pystr),
        create_user SECRET_KEY utcnow now_ms uuid4 salt tok data db =
          (Raise forbidden, db)) /\
     (forall user_id' : pystr,
        delete_user SECRET_KEY utcnow tok user_id' db =
          (Raise forbidden, db))) /\
  (email actor = ADMIN_EMAIL ->
     forall user_id' : pystr,
       user_id' ∉ id <$> db ->
       delete_user SECRET_KEY utcnow tok user_id' db =
         (Raise (mkHTTPException 404 "User not found" []), db)) /\
  (forall (salt : N) (data : gmap string pystr),
     truthy (data !! "current_password") = false \/
     truthy (data !! "new_password") = false ->
     change_password SECRET_KEY utcnow salt tok data db =
       (Raise (mkHTTPException 400
                 "current_password and new_password are required" []), db)) /\
  (spec_error_kind forbidden = Some Forbidden /\
   spec_error_kind (mkHTTPException 404 "User not found" []) =
     Some NotFoundError /\
   spec_error_kind
     (mkHTTPException 400
        "current_password and new_password are required" []) =
     Some ValidationError).
Proof.
  intros Hactor. split; [|split; [|split; [|repeat split]]].
  - intros Hne. unfold create_user, delete_user, bind. rewrite Hactor.
    rewrite (bool_decide_eq_false_2 _ Hne). cbn [negb]. split; reflexivity.
  - intros Hadm user_id' Hunknown. unfold delete_user, bind. rewrite Hactor.
    rewrite (bool_decide_eq_true_2 _ Hadm). cbn [negb].
    unfold select_by_id. rewrite (find_none_id db user_id' Hunknown).
    reflexivity.
  - intros salt data Hmissing. unfold change_password, bind. rewrite Hactor.
    destruct Hmissing as [-> | ->]; cbn [negb orb]; [reflexivity|].
    rewrite orb_true_r. reflexivity.
Qed.

(** ** Tokens, login and the password change *)

(** C6: whatever makes [jwt.decode] raise, GET /auth/me and the
    dependency of the other endpoints answer with the one 401 "Could not
    validate credentials"; and so does GET /auth/me when the token is
    good but no row has the email in it. *)
Theorem token_failures_are_one_error (utcnow : Z) (tok : token) (db : DB) :
  spec_error_kind credentials_exception = Some InvalidCredentials /\
  (forall e : JWTError,
     jwt_decode tok SECRET_KEY [ALGORITHM] utcnow = inr e ->
     get_current_user_obj SECRET_KEY utcnow tok db =
       (Raise credentials_exception, db) /\
     get_current_user SECRET_KEY utcnow tok db =
       (Raise credentials_exception, db)) /\
  (forall (payload : Claims) (email' : pystr),
     jwt_decode tok SECRET_KEY [ALGORITHM] utcnow = inl payload ->
     sub payload = Some email' ->
     (forall u, u ∈ db -> email u <> email') ->
     get_current_user_obj SECRET_KEY utcnow tok db =
       (Raise credentials_exception, db) /\
     get_current_user SECRET_KEY utcnow tok db =
       (Raise credentials_exception, db)).
Proof.
  split; [reflexivity|]. split.
  - intros e He. unfold get_current_user_obj, get_current_user.
    rewrite He. split; reflexivity.
  - intros payload email' Hdec Hsub Habsent.
    unfold get_current_user_obj, get_current_user.
    rewrite Hdec, Hsub. unfold_m.
    rewrite (find_none_email db email' Habsent). split; reflexivity.
Qed.

(** C7, as the code has it: with a field missing or empty the request
    gets the 400 of the missing field; with both fields there and a
    current password that [verify_password] returns [False] for it gets
    400 "Current password is incorrect", a bad request and not a 401; and
    the table changes only when the request succeeds, by the new hash of
    the actor's row. *)
Theorem change_password_failures_are_bad_requests (utcnow : Z) (salt : N)
    (tok : token) (data : gmap string pystr) (db : DB) (actor : User) :
  get_current_user_obj SECRET_KEY utcnow tok db = (Return actor, db) ->
  let current_password := data !! "current_password" in
  let new_password := data !! "new_password" in
  let r := change_password SECRET_KEY utcnow salt tok data db in
  let wrong := mkHTTPException 400 "Current password is incorrect" [] in
  let missing :=
    mkHTTPException 400 "current_password and new_password are required" [] in
  (truthy current_password = false \/ truthy new_password = false ->
     r = (Raise missing, db)) /\
  (truthy current_password = true -> truthy new_password = true ->
     verify_password actor (str_of current_password) = Return false ->
     r = (Raise wrong, db)) /\
  (spec_error_kind missing = Some ValidationError /\
   spec_error_kind wrong = Some ValidationError) /\
  (forall msg : Message,
     fst r = Return msg ->
     truthy current_password = true /\ truthy new_password = true /\
     verify_password actor (str_of current_password) = Return true /\
     exists actor' : User,
       set_password actor salt (str_of new_password) = Return actor' /\
       snd r = (fun u => if bool_decide (id u = id actor') then actor'
                         else u) <$> db) /\
  ((forall msg : Message, fst r <> Return msg) -> snd r = db).
Proof.
  intros Hactor current_password new_password r wrong missing.
  subst r. unfold change_password, bind. rewrite Hactor.
  fold current_password new_password.
  destruct (truthy current_password) eqn:Hcp;
    destruct (truthy new_password) eqn:Hnp; cbn [negb orb];
    try (repeat split; solve [reflexivity | discriminate
                             | intros [?|?]; discriminate
                             | intros; discriminate]).
  unfold lift at 1.
  destruct (verify_password actor (str_of current_password))
    as [[|]|e|e] eqn:Hver; cbn [negb];
    try (repeat split; solve [reflexivity | discriminate
                             | intros [?|?]; discriminate
                             | intros; discriminate]).
  unfold_m.
  destruct (set_password actor salt (str_of new_password)) as [actor'|e|e]
    eqn:Hset; cbn [fst snd].
  - split; [intros [?|?]; discriminate|].
    split; [intros; discriminate|]. split; [split; reflexivity|].
    split.
    + intros msg _. repeat split. exists actor'. split; reflexivity.
    + intros Hnever. destruct (Hnever _ eq_refl).
  - repeat split; solve [reflexivity | discriminate
                        | intros [?|?]; discriminate | intros; discriminate].
  - repeat split; solve [reflexivity | discriminate
                        | intros [?|?]; discriminate | intros; discriminate].
Qed.

(** C8: POST /users by the admin with a password and an email that a
    row already has is refused with 400 "Email already exists"; no row is
    added, and a login with that email goes on as before, against the
    first row of that email. *)
Theorem create_user_existing_email_is_refused (utcnow now_ms : Z)
    (uuid4 : pystr) (salt : N) (tok : token) (data : gmap string pystr)
    (db : DB) (actor existing : User) :
  get_current_user_obj SECRET_KEY utcnow tok db = (Return actor, db) ->
  email actor = ADMIN_EMAIL ->
  truthy (data !! "email") = true ->
  truthy (data !! "password") = true ->
  existing ∈ db ->
  email existing = str_of (data !! "email") ->
  let r := create_user SECRET_KEY utcnow now_ms uuid4 salt tok data db in
  let taken := mkHTTPException 400 "Email already exists" [] in
  r = (Raise taken, db) /\
  spec_error_kind taken = Some ValidationError /\
  (forall (t : Z) (password : pystr),
     login_for_access_token SECRET_KEY t (email existing) password (snd r) =
     login_for_access_token SECRET_KEY t (email existing) password db) /\
  (forall (t : Z) (password : pystr),
     (exists resp, fst (login_for_access_token SECRET_KEY t (email existing)
                          password (snd r)) = Return resp) <->
     (exists original,
        List.find (fun u => bool_decide (email u = email existing)) db =
          Some original /\
        verify_password original password = Return true)).
Proof.
  intros Hactor Hadm Hemail Hpw Hin Hsame r taken.
  assert (Hr : r = (Raise taken, db)).
  { subst r. unfold create_user, bind. rewrite Hactor.
    rewrite (bool_decide_eq_true_2 _ Hadm), Hemail, Hpw. cbn [negb orb].
    unfold select_by_email.
    destruct (List.find _ db) as [u|] eqn:Hfind; [reflexivity|].
    exfalso. apply list_elem_of_In in Hin.
    pose proof (find_none _ _ Hfind existing Hin) as Hf. cbn in Hf.
    rewrite bool_decide_eq_true_2 in Hf by exact Hsame. discriminate Hf. }
  split; [exact Hr|]. split; [reflexivity|].
  rewrite Hr. cbn [snd]. split; [reflexivity|].
  intros t password.
  unfold login_for_access_token, authenticate_user. unfold_m.
  destruct (List.find _ db) as [u|]; cbn.
  - destruct (verify_password u password) as [[|]|e|e] eqn:Hver; cbn.
    + split; eauto.
    + split; [intros [? [=]]|].
      intros (original & [= <-] & Hv). congruence.
    + split; [intros [? [=]]|].
      intros (original & [= <-] & Hv). congruence.
    + split; [intros [? [=]]|].
      intros (original & [= <-] & Hv). congruence.
  - split; [intros [? [=]] | intros (? & [=] & _)].
Qed.

Context {IJ : IdealJOSE J}.

(** C9: POST /auth/logout returns its message and leaves the table as it
    was; after any number of logouts a token is answered as before them,
    by GET /auth/me and by the dependency of the other endpoints; and a
    token made with a lifetime decodes to its payload at any time up to
    its expiry. *)
Theorem logout_changes_nothing (n : nat) (utcnow : Z) (tok : token)
    (db : DB) :
  let db' := run SECRET_KEY (replicate n PostAuthLogout) db in
  logout db = (Return {| message := "Successfully logged out" |}, db) /\
  db' = db /\
  get_current_user_obj SECRET_KEY utcnow tok db' =
    get_current_user_obj SECRET_KEY utcnow tok db /\
  get_current_user SECRET_KEY utcnow tok db' =
    get_current_user SECRET_KEY utcnow tok db /\
  (forall (data : Claims) (ttl issued : Z),
     ttl <> 0%Z -> (utcnow <= issued + ttl)%Z ->
     jwt_decode (create_access_token SECRET_KEY data (Some ttl) issued)
       SECRET_KEY [ALGORITHM] utcnow =
       inl {| sub := sub data; user_id := user_id data;
              exp := Some (issued + ttl)%Z |}).
Proof.
  intros db'.
  assert (Hdb : db' = db).
  { subst db'. induction n as [|n IH]; [reflexivity|]. exact IH. }
  rewrite Hdb. repeat split.
  intros data ttl issued Httl Hnow. unfold create_access_token.
  rewrite jwt_decode_encode. cbn [exp].
  destruct (Z.eqb_spec ttl 0) as [?|_]; [contradiction|].
  destruct (Z.ltb_spec (issued + ttl) utcnow); [lia | reflexivity].
Qed.

Context {IC : IdealCryptContext C}.

(** C3, at a login that passlib refuses to look at. The stored row has
    a hash and the password is none that [pwd_context.verify] accepts
    (more than 4096 characters, a NUL, a lone surrogate):
    [verify_password] raises, nothing catches it, and the request ends in
    that exception and not in the 401 of a wrong password. *)
Theorem login_with_refused_password_is_not_401 (utcnow : Z)
    (username password : pystr) (db : DB) (u : User) (h : pwhash) :
  List.find (fun v => bool_decide (email v = username)) db = Some u ->
  password_hash u = Some h ->
  refused password ->
  exists e : PyException,
    verify_password u password = Crash e /\
    login_for_access_token SECRET_KEY utcnow username password db =
      (Crash e, db) /\
    fst (login_for_access_token SECRET_KEY utcnow username password db) <>
      Raise incorrect_login.
Proof.
  intros Hfind Hhash Hrefused.
  destruct (ctx_verify_refused password h Hrefused) as [e He].
  assert (Hver : verify_password u password = Crash e)
    by (unfold verify_password; rewrite Hhash; exact He).
  assert (Hlogin : login_for_access_token SECRET_KEY utcnow username
                     password db = (Crash e, db)).
  { unfold login_for_access_token, authenticate_user. unfold_m.
    rewrite Hfind, Hver. reflexivity. }
  exists e. split; [exact Hver|]. split; [exact Hlogin|].
  rewrite Hlogin. discriminate.
Qed.

End EndpointFacts.

(** ** Runs in the small world *)

Lemma ex_db_primary_key : primary_key ex_db.
Proof. apply (bool_decide_unpack _). vm_compute. exact I. Defined.

Lemma ex_admin_in_db : ex_admin ∈ ex_db.
Proof. apply list_elem_of_here. Defined.

Lemma ex_bob_in_db : ex_bob ∈ ex_db.
Proof. apply list_elem_of_further, list_elem_of_here. Defined.

Lemma ex_admin_is_admin : is_admin ex_admin.
Proof. reflexivity. Defined.

Lemma ex_admin_resolves :
  @get_current_user_obj sym_crypt sym_jose ex_secret 3000 ex_admin_token ex_db
  = (Return ex_admin, ex_db).
Proof. vm_compute. reflexivity. Defined.

Lemma ex_bob_resolves :
  @get_current_user_obj sym_crypt sym_jose ex_secret 3000 ex_bob_token ex_db
  = (Return ex_bob, ex_db).
Proof. vm_compute. reflexivity. Defined.

Lemma ex_bob_not_admin : email ex_bob <> ADMIN_EMAIL.
Proof. intros H. vm_compute in H. discriminate H. Defined.

(** The three ways a token can be bad, in the symbolic scheme: a string
    that is no token, a token signed under another key, and a token past
    its expiry. GET /auth/me answers the three alike. *)
Example bad_tokens_look_alike :
  let me := @get_current_user sym_crypt sym_jose ex_secret 6000 in
  sym_decode (Garbage (py "not.a.token")) ex_secret [ALGORITHM] 6000 =
    inr MalformedToken /\
  sym_decode (Signed {| sub := Some (email ex_bob); user_id := None;
                        exp := Some 9000%Z |} (py "forged") ALGORITHM)
    ex_secret [ALGORITHM] 6000 = inr SignatureVerificationFailed /\
  sym_decode ex_bob_token ex_secret [ALGORITHM] 6000 =
    inr ExpiredSignatureError /\
  me (Garbage (py "not.a.token")) ex_db = (Raise credentials_exception, ex_db) /\
  me (Signed {| sub := Some (email ex_bob); user_id := None;
                exp := Some 9000%Z |} (py "forged") ALGORITHM) ex_db =
    (Raise credentials_exception, ex_db) /\
  me ex_bob_token ex_db = (Raise credentials_exception, ex_db).
Proof. vm_compute. repeat split. Qed.

(** The admin row survives [ex_requests]. *)
Lemma admin_row_is_never_deleted_witness :
  primary_key ex_db /\ ex_admin ∈ ex_db /\ is_admin ex_admin /\
  (exists a',
     a' ∈ @run sym_crypt sym_jose ex_secret
            ex_requests ex_db /\
     id a' = id ex_admin /\ is_admin a') /\
  @delete_user sym_crypt sym_jose ex_secret 3000 ex_admin_token (id ex_admin)
    ex_db =
    (Raise (mkHTTPException 400 "Cannot delete admin user" []), ex_db).
Proof.
  pose proof (@admin_row_is_never_deleted sym_crypt sym_jose ex_secret
                ex_db ex_admin ex_db_primary_key ex_admin_in_db
                ex_admin_is_admin) as [Hrun Hdel].
  split; [exact ex_db_primary_key|]. split; [exact ex_admin_in_db|].
  split; [exact ex_admin_is_admin|]. split; [apply Hrun|].
  apply (Hdel 3000%Z ex_admin_token ex_admin ex_admin_resolves
           ex_admin_is_admin).
Defined.

Lemma non_admin_is_forbidden_witness :
  @get_current_user_obj sym_crypt sym_jose ex_secret 3000 ex_bob_token ex_db
    = (Return ex_bob, ex_db) /\
  email ex_bob <> ADMIN_EMAIL /\
  @list_users sym_crypt sym_jose ex_secret 3000 ex_bob_token ex_db =
    (Raise forbidden, ex_db) /\
  @create_user sym_crypt sym_jose ex_secret 3000 9000 (py "u-new") 7
    ex_bob_token ex_taken_email_body ex_db = (Raise forbidden, ex_db) /\
  @delete_user sym_crypt sym_jose ex_secret 3000 ex_bob_token (id ex_admin)
    ex_db = (Raise forbidden, ex_db).
Proof.
  pose proof (@non_admin_is_forbidden sym_crypt sym_jose ex_secret 3000
                ex_bob_token ex_db ex_bob ex_bob_resolves ex_bob_not_admin)
    as (_ & Hlist & Hcreate & Hdelete).
  split; [exact ex_bob_resolves|]. split; [exact ex_bob_not_admin|].
  split; [exact Hlist|]. split; [apply Hcreate | apply Hdelete].
Defined.

Lemma error_precedence_witness :
  @get_current_user_obj sym_crypt sym_jose ex_secret 3000 ex_bob_token ex_db
    = (Return ex_bob, ex_db) /\
  @create_user sym_crypt sym_jose ex_secret 3000 9000 (py "u-new") 7
    ex_bob_token ex_taken_email_no_password_body ex_db =
    (Raise forbidden, ex_db) /\
  @delete_user sym_crypt sym_jose ex_secret 3000 ex_bob_token (py "u-nobody")
    ex_db = (Raise forbidden, ex_db) /\
  @change_password sym_crypt sym_jose ex_secret 3000 7 ex_bob_token
    ex_no_new_password_body ex_db =
    (Raise (mkHTTPException 400
              "current_password and new_password are required" []), ex_db).
Proof.
  pose proof (@error_precedence sym_crypt sym_jose ex_secret 3000
                ex_bob_token ex_db ex_bob ex_bob_resolves)
    as (Hnon & _ & Hmissing & _).
  destruct (Hnon ex_bob_not_admin) as [Hcreate Hdelete].
  split; [exact ex_bob_resolves|]. split; [apply Hcreate|].
  split; [apply Hdelete|]. apply Hmissing. right. vm_compute. reflexivity.
Defined.

Lemma login_with_refused_password_is_not_401_witness :
  IdealCryptContext sym_crypt /\
  List.find (fun v => bool_decide (email v = py "bob@test.com")) ex_db =
    Some ex_bob /\
  password_hash ex_bob = Some (sym_hash 2 (py "hunter2")) /\
  refused (replicate 4097 97%N) /\
  fst (@login_for_access_token sym_crypt sym_jose ex_secret 3000
         (py "bob@test.com") (replicate 4097 97%N) ex_db) <>
    Raise incorrect_login.
Proof.
  assert (Hfind : List.find (fun v => bool_decide (email v = py "bob@test.com"))
                    ex_db = Some ex_bob) by (vm_compute; reflexivity).
  assert (Hrefused : refused (replicate 4097 97%N))
    by (left; rewrite length_replicate; lia).
  split; [exact sym_crypt_ideal|]. split; [exact Hfind|].
  split; [reflexivity|]. split; [exact Hrefused|].
  destruct (@login_with_refused_password_is_not_401 sym_crypt sym_jose
              ex_secret sym_crypt_ideal 3000 (py "bob@test.com")
              (replicate 4097 97%N) ex_db ex_bob _ Hfind eq_refl Hrefused)
    as (e & _ & _ & Hne).
  exact Hne.
Defined.

(** Bob's row has a hash. A login as bob with 4097 letters, or with a
    NUL in the password, ends in the exception of passlib; the same
    passwords for carol, whose row has no hash, get the 401. *)
Example ex_refused_logins :
  @login_for_access_token sym_crypt sym_jose ex_secret 3000
    (py "bob@test.com") (replicate 4097 97%N) ex_db =
    (Crash PasswordSizeError, ex_db) /\
  @login_for_access_token sym_crypt sym_jose ex_secret 3000
    (py "bob@test.com") [97; 0; 98]%N ex_db = (Crash ValueError, ex_db) /\
  @login_for_access_token sym_crypt sym_jose ex_secret 3000
    (py "carol@test.com") (replicate 4097 97%N) ex_db =
    (Raise incorrect_login, ex_db) /\
  @login_for_access_token sym_crypt sym_jose ex_secret 3000
    (py "carol@test.com") [97; 0; 98]%N ex_db =
    (Raise incorrect_login, ex_db).
Proof. vm_compute. repeat split. Qed.

Lemma logout_changes_nothing_witness :
  IdealJOSE sym_jose /\
  @run sym_crypt sym_jose ex_secret (replicate 3 PostAuthLogout) ex_db = ex_db /\
  @get_current_user sym_crypt sym_jose ex_secret 3000 ex_bob_token
    (@run sym_crypt sym_jose ex_secret (replicate 3 PostAuthLogout) ex_db) =
  @get_current_user sym_crypt sym_jose ex_secret 3000 ex_bob_token ex_db.
Proof.
  pose proof (@logout_changes_nothing sym_crypt sym_jose ex_secret
                sym_jose_ideal 3 3000 ex_bob_token ex_db)
    as (_ & Hdb & _ & Hme & _).
  split; [exact sym_jose_ideal|]. split; [exact Hdb | exact Hme].
Defined.

Lemma set_password_then_verify_long_fails_witness :
  IdealCryptContext sym_crypt /\
  exists u' : @User sym_crypt,
    set_password ex_carol 5 (replicate 73 97%N) = Return u' /\
    verify_password u' (replicate 73 97%N) = Return false.
Proof.
  split; [exact sym_crypt_ideal|].
  destruct (@set_password_then_verify_long_fails sym_crypt sym_crypt_ideal
              ex_carol 5) as (u' & h & _ & Hset & _ & Hver & _).
  exists u'. split; [exact Hset | exact Hver].
Defined.

Lemma set_password_truncates_characters_verify_does_not_witness :
  IdealCryptContext sym_crypt /\
  exists h1 h2 : @pwhash sym_crypt,
    @set_password sym_crypt ex_carol 5 (replicate 36 0xE9 ++ [97])%N =
      Return (with_password_hash ex_carol (Some h1)) /\
    @set_password sym_crypt ex_carol 5 (replicate 36 0xE9 ++ [98])%N =
      Return (with_password_hash ex_carol (Some h2)) /\
    h1 <> h2.
Proof.
  split; [exact sym_crypt_ideal|].
  destruct (proj1 (@set_password_truncates_characters_verify_does_not
                     sym_crypt sym_crypt_ideal ex_carol 5))
    as (_ & _ & h1 & h2 & _ & _ & Hs1 & Hs2 & Hne).
  exists h1, h2. split; [exact Hs1|]. split; [exact Hs2 | exact Hne].
Defined.

(** Bob sends a wrong current password: the answer is a 400, which the
    specification calls a [ValidationError], not a 401. *)
Lemma change_password_wrong_current_is_not_unauthorized :
  @get_current_user_obj sym_crypt sym_jose ex_secret 3000 ex_bob_token ex_db
    = (Return ex_bob, ex_db) /\
  verify_password ex_bob (py "wrong") = Return false /\
  @change_password sym_crypt sym_jose ex_secret 3000 7 ex_bob_token
    ex_wrong_current_body ex_db =
    (Raise (mkHTTPException 400 "Current password is incorrect" []), ex_db) /\
  ~ (exists e : HTTPException,
       fst (@change_password sym_crypt sym_jose ex_secret 3000 7 ex_bob_token
              ex_wrong_current_body ex_db) = Raise e /\
       spec_error_kind e = Some InvalidCredentials).
Proof.
  assert (Hrun : @change_password sym_crypt sym_jose ex_secret 3000 7
                   ex_bob_token ex_wrong_current_body ex_db =
                 (Raise (mkHTTPException 400 "Current password is incorrect"
                           []), ex_db))
    by (vm_compute; reflexivity).
  split; [exact ex_bob_resolves|]. split; [vm_compute; reflexivity|].
  split; [exact Hrun|]. rewrite Hrun. intros (e & [= <-] & Hkind).
  vm_compute in Hkind. discriminate Hkind.
Qed.

Lemma change_password_failures_are_bad_requests_witness :
  @get_current_user_obj sym_crypt sym_jose ex_secret 3000 ex_bob_token ex_db
    = (Return ex_bob, ex_db) /\
  @change_password sym_crypt sym_jose ex_secret 3000 7 ex_bob_token
    ex_wrong_current_body ex_db =
    (Raise (mkHTTPException 400 "Current password is incorrect" []), ex_db).
Proof.
  pose proof (@change_password_failures_are_bad_requests sym_crypt sym_jose
                ex_secret 3000 7 ex_bob_token ex_wrong_current_body ex_db
                ex_bob ex_bob_resolves) as (_ & Hwrong & _).
  split; [exact ex_bob_resolves|].
  apply Hwrong; vm_compute; reflexivity.
Defined.

(** The admin posts bob's email without a password: the request is
    incomplete, and the answer names the missing field before the email
    is looked up. *)
Example create_user_taken_email_without_password :
  @get_current_user_obj sym_crypt sym_jose ex_secret 3000 ex_admin_token ex_db
    = (Return ex_admin, ex_db) /\
  is_admin ex_admin /\
  ex_bob ∈ ex_db /\
  ex_taken_email_no_password_body !! "email" = Some (email ex_bob) /\
  @create_user sym_crypt sym_jose ex_secret 3000 9000 (py "u-new") 7
    ex_admin_token ex_taken_email_no_password_body ex_db =
    (Raise (mkHTTPException 400 "email and password are required" []),
     ex_db) /\
  fst (@create_user sym_crypt sym_jose ex_secret 3000 9000 (py "u-new") 7
         ex_admin_token ex_taken_email_no_password_body ex_db) <>
    Raise (mkHTTPException 400 "Email already exists" []).
Proof.
  assert (Hrun : @create_user sym_crypt sym_jose ex_secret 3000 9000
                   (py "u-new") 7 ex_admin_token
                   ex_taken_email_no_password_body ex_db =
                 (Raise (mkHTTPException 400
                           "email and password are required" []), ex_db))
    by (vm_compute; reflexivity).
  split; [exact ex_admin_resolves|]. split; [exact ex_admin_is_admin|].
  split; [exact ex_bob_in_db|]. split; [vm_compute; reflexivity|].
  split; [exact Hrun|]. rewrite Hrun. discriminate.
Qed.

Lemma create_user_existing_email_is_refused_witness :
  @get_current_user_obj sym_crypt sym_jose ex_secret 3000 ex_admin_token ex_db
    = (Return ex_admin, ex_db) /\
  email ex_admin = ADMIN_EMAIL /\
  truthy (ex_taken_email_body !! "email") = true /\
  truthy (ex_taken_email_body !! "password") = true /\
  ex_bob ∈ ex_db /\
  email ex_bob = str_of (ex_taken_email_body !! "email") /\
  @create_user sym_crypt sym_jose ex_secret 3000 9000 (py "u-new") 7
    ex_admin_token ex_taken_email_body ex_db =
    (Raise (mkHTTPException 400 "Email already exists" []), ex_db).
Proof.
  assert (He : truthy (ex_taken_email_body !! "email") = true)
    by (vm_compute; reflexivity).
  assert (Hp : truthy (ex_taken_email_body !! "password") = true)
    by (vm_compute; reflexivity).
  assert (Hs : email ex_bob = str_of (ex_taken_email_body !! "email"))
    by (vm_compute; reflexivity).
  split; [exact ex_admin_resolves|]. split; [exact ex_admin_is_admin|].
  split; [exact He|]. split; [exact Hp|]. split; [exact ex_bob_in_db|].
  split; [exact Hs|].
  exact (proj1 (@create_user_existing_email_is_refused sym_crypt sym_jose
                  ex_secret 3000 9000 (py "u-new") 7 ex_admin_token
                  ex_taken_email_body ex_db ex_admin ex_bob
                  ex_admin_resolves ex_admin_is_admin He Hp ex_bob_in_db Hs)).
Defined.

(** After [ex_requests] bob is gone, the admin row has its new hash, and
    carol is untouched. *)
Example ex_requests_run :
  @run sym_crypt sym_jose ex_secret ex_requests ex_db =
    [with_password_hash ex_admin (Some (sym_hash 9 (py "654321")));
     ex_carol].
Proof. vm_compute. reflexivity. Qed.

(** A correct login of bob yields a token for bob's email; a login of
    carol, who has no hash, is refused. *)
Example ex_logins :
  (exists resp,
     @login_for_access_token sym_crypt sym_jose ex_secret 3000
       (py "bob@test.com") (py "hunter2") ex_db = (Return resp, ex_db) /\
     access_token resp =
       Signed {| sub := Some (py "bob@test.com");
                 user_id := Some (py "u-bob");
                 exp := Some 4800%Z |} ex_secret ALGORITHM) /\
  @login_for_access_token sym_crypt sym_jose ex_secret 3000
    (py "carol@test.com") (py "") ex_db = (Raise incorrect_login, ex_db).
Proof.
  split; [eexists; split|]; vm_compute; reflexivity.
Qed.

(** * Further properties *)

(** ** What [set_password] hashes *)

Section MorePasswordFacts.
Context {C : CryptContext}.

Lemma utf8_encode_char_None (c : N) :
  utf8_encode_char c = None <-> surrogate c.
Proof.
  unfold utf8_encode_char, surrogate.
  destruct (N.ltb_spec c 0x80); [split; [discriminate | lia]|].
  destruct (N.ltb_spec c 0x800); [split; [discriminate | lia]|].
  destruct (N.leb_spec 0xD800 c); destruct (N.leb_spec c 0xDFFF);
    cbn [andb]; try (split; [reflexivity | lia]);
    try (destruct (N.ltb_spec c 0x10000); split; (discriminate || lia)).
  split; [intros _; lia | reflexivity].
Qed.

Lemma utf8_encode_char_length (c : N) (bs : list N) :
  utf8_encode_char c = Some bs -> (1 <= length bs <= 4)%nat.
Proof.
  unfold utf8_encode_char.
  repeat case_match; intros [= <-]; cbn; lia.
Qed.

Lemma utf8_encode_None (s : pystr) :
  utf8_encode s = None <-> Exists surrogate s.
Proof.
  induction s as [|c s IH]; cbn [utf8_encode].
  - split; [discriminate | intros H; inversion H].
  - rewrite Exists_cons, <- IH, <- utf8_encode_char_None.
    destruct (utf8_encode_char c), (utf8_encode s);
      split; try discriminate; try tauto; intros [?|?]; discriminate.
Qed.

Lemma utf8_encode_length (s bs : pystr) :
  utf8_encode s = Some bs -> (length s <= length bs <= 4 * length s)%nat.
Proof.
  revert bs. induction s as [|c s IH]; intros bs; cbn [utf8_encode].
  - intros [= <-]. cbn. lia.
  - destruct (utf8_encode_char c) as [b|] eqn:Hc; [|discriminate].
    destruct (utf8_encode s) as [bs'|]; [|discriminate].
    intros [= <-]. apply utf8_encode_char_length in Hc.
    specialize (IH bs' eq_refl). rewrite length_app. cbn [length]. lia.
Qed.

Lemma set_password_surrogate (u : User) (salt : N) (password : pystr) :
  Exists surrogate password ->
  set_password u salt password = Crash UnicodeEncodeError.
Proof.
  intros Hs. apply utf8_encode_None in Hs.
  unfold set_password. rewrite Hs. reflexivity.
Qed.

Lemma set_password_encodable (u : User) (salt : N) (password : pystr) :
  ~ Exists surrogate password ->
  set_password u salt password =
    outcome_map (fun h => with_password_hash u (Some h))
      (ctx_hash salt (take 72 password)).
Proof.
  intros Hs. unfold set_password.
  destruct (utf8_encode password) as [bs|] eqn:Hbs;
    [|destruct (Hs (proj1 (utf8_encode_None password) Hbs))].
  destruct (Nat.ltb_spec 72 (length bs)); [reflexivity|].
  apply utf8_encode_length in Hbs.
  rewrite take_ge by lia. reflexivity.
Qed.

Lemma set_password_Return_take (u u' : User) (salt : N) (p : pystr) :
  set_password u salt p = Return u' ->
  exists h : pwhash,
    ctx_hash salt (take 72 p) = Return h /\
    u' = with_password_hash u (Some h).
Proof.
  intros Hset.
  destruct (decide (Exists surrogate p)) as [Hs|Hs].
  - rewrite (set_password_surrogate u salt p Hs) in Hset. discriminate Hset.
  - rewrite (set_password_encodable u salt p Hs) in Hset.
    destruct (ctx_hash salt (take 72 p)) as [h| |]; try discriminate.
    injection Hset as <-. eauto.
Qed.

(** The first 72 characters of a password without a surrogate are
    refused exactly when one of them is a NUL. *)
Lemma refused_take_72 (p : pystr) :
  ~ Exists surrogate p -> refused (take 72 p) <-> 0%N ∈ take 72 p.
Proof.
  intros Hs. unfold refused. split; [|auto].
  intros [Hlen|[Hsur|Hnul]]; [|exfalso|exact Hnul].
  - rewrite length_take in Hlen. lia.
  - apply Hs. apply Exists_exists in Hsur as (c & Hc & Hsur).
    apply Exists_exists. exists c. split; [|exact Hsur].
    exact (subseteq_take 72 p c Hc).
Qed.

Context {IC : IdealCryptContext C}.

(** The byte test of [set_password] never decides anything: what goes to
    [pwd_context.hash] is always the first 72 characters of the
    password, since a password of at most 72 bytes has at most 72
    characters. The call raises [UnicodeEncodeError] on a lone surrogate,
    and else raises when passlib refuses those characters, which is when
    one of them is a NUL; otherwise it stores their hash. *)
Theorem set_password_hashes_first_72_characters (u : User) (salt : N)
    (password : pystr) :
  (Exists surrogate password ->
     set_password u salt password = Crash UnicodeEncodeError) /\
  (~ Exists surrogate password ->
     set_password u salt password =
       outcome_map (fun h => with_password_hash u (Some h))
         (ctx_hash salt (take 72 password))) /\
  (~ Exists surrogate password -> 0%N ∈ take 72 password ->
     exists e : PyException, set_password u salt password = Crash e) /\
  (~ Exists surrogate password -> 0%N ∉ take 72 password ->
     exists h : pwhash,
       ctx_hash salt (take 72 password) = Return h /\
       set_password u salt password =
         Return (with_password_hash u (Some h))).
Proof.
  split; [apply set_password_surrogate|].
  split; [apply set_password_encodable|]. split.
  - intros Hs Hnul. rewrite (set_password_encodable u salt password Hs).
    destruct (ctx_hash_refused salt (take 72 password)) as [e ->];
      [apply refused_take_72; assumption|].
    exists e. reflexivity.
  - intros Hs Hnul. rewrite (set_password_encodable u salt password Hs).
    destruct (ctx_hash_accepted salt (take 72 password)) as [h Hh].
    + intros Hr. apply Hnul. apply refused_take_72; assumption.
    + exists h. rewrite Hh. split; reflexivity.
Qed.

(** After [set_password], [verify_password] returns [True] for exactly
    the first 72 characters of what was set, and [False] for every other
    password that passlib accepts: the password itself verifies if and
    only if it has at most 72 characters. *)
Theorem verify_after_set_password (u u' : User) (salt : N) (p : pystr) :
  set_password u salt p = Return u' ->
  (forall q : pystr,
     ~ refused q ->
     verify_password u' q = Return (bool_decide (q = take 72 p))) /\
  (forall q : pystr, verify_password u' q = Return true <-> q = take 72 p) /\
  (verify_password u' p = Return true <-> (length p <= 72)%nat).
Proof.
  intros Hset. apply set_password_Return_take in Hset as (h & Hh & ->).
  assert (Hacc : ~ refused (take 72 p)).
  { intros Hr. destruct (ctx_hash_refused salt _ Hr) as [e He].
    rewrite He in Hh. discriminate Hh. }
  assert (Hv : forall q, ~ refused q ->
            verify_password (with_password_hash u (Some h)) q =
              Return (bool_decide (q = take 72 p))).
  { intros q Hq. rewrite verify_with_password_hash.
    exact (ctx_verify_hash salt q _ h Hh Hq). }
  assert (Hiff : forall q,
            verify_password (with_password_hash u (Some h)) q = Return true
            <-> q = take 72 p).
  { intros q. split.
    - intros Htrue. destruct (decide (refused q)) as [Hr|Hr].
      + rewrite verify_with_password_hash in Htrue.
        destruct (ctx_verify_refused q h Hr) as [e He].
        rewrite He in Htrue. discriminate Htrue.
      + rewrite (Hv q Hr) in Htrue. injection Htrue as Htrue.
        exact (bool_decide_eq_true_1 _ Htrue).
    - intros ->. rewrite (Hv _ Hacc).
      rewrite bool_decide_eq_true_2 by reflexivity. reflexivity. }
  split; [exact Hv|]. split; [exact Hiff|].
  rewrite Hiff. split.
  - intros Heq. apply (f_equal length) in Heq.
    rewrite length_take in Heq. lia.
  - intros Hlen. rewrite take_ge by lia. reflexivity.
Qed.

End MorePasswordFacts.

(** ** The constraints of the table *)

Section ConstraintFacts.
Context {C : CryptContext} {J : JOSE}.
Variable SECRET_KEY : pystr.

Lemma existsb_false_email (user : User) (db : DB) :
  existsb (fun u => bool_decide (id u = id user)
                    || bool_decide (email u = email user)) db = false ->
  email user ∉ email <$> db.
Proof.
  intros Hex Hin. apply list_elem_of_fmap in Hin as (u & Hem & Hu).
  apply not_true_iff_false in Hex. apply Hex.
  apply existsb_exists. exists u. split; [apply list_elem_of_In, Hu|].
  rewrite Hem, (bool_decide_eq_true_2 (email u = email u)) by reflexivity.
  apply orb_true_r.
Qed.

Lemma NoDup_fmap_filter {A B} (g : A -> B) (p : A -> bool) (l : list A) :
  NoDup (g <$> l) -> NoDup (g <$> List.filter p l).
Proof.
  induction l as [|x l IH]; [intros H; exact H|].
  rewrite fmap_cons. intros Hnd. apply NoDup_cons in Hnd as [Hx Hnd].
  cbn [List.filter]. destruct (p x); [|apply IH, Hnd].
  rewrite fmap_cons. apply NoDup_cons. split; [|apply IH, Hnd].
  intros Hin. apply Hx. apply list_elem_of_fmap in Hin as (y & Hy & Hyin).
  apply list_elem_of_fmap. exists y. split; [exact Hy|].
  apply list_elem_of_In. apply list_elem_of_In, filter_In in Hyin.
  apply Hyin.
Qed.

Lemma update_hash_keeps_rows (db : DB) (user : User) (h : option pwhash) :
  primary_key db -> user ∈ db ->
  forall u, u ∈ db ->
    let u' := if bool_decide (id u = id user)
              then with_password_hash user h else u in
    id u' = id u /\ email u' = email u /\ name u' = name u.
Proof.
  intros Hpk Huser u Hu. cbn zeta. case_bool_decide as Hid; [|auto].
  assert (u = user) as -> by (eapply primary_key_inj; eassumption).
  auto.
Qed.

Lemma update_hash_keeps_emails (db : DB) (user : User) (h : option pwhash) :
  primary_key db -> user ∈ db ->
  email <$> ((fun u => if bool_decide (id u = id user)
                       then with_password_hash user h else u) <$> db) =
    email <$> db.
Proof.
  intros Hpk Huser. rewrite <- list_fmap_compose.
  apply list_fmap_ext. intros i u Hi. cbn.
  apply (update_hash_keeps_rows db user h Hpk Huser u).
  eapply list_elem_of_lookup_2; exact Hi.
Qed.

Lemma delete_removes_at_most_one (db : DB) (i : pystr) :
  primary_key db ->
  (length db <=
     length (List.filter (fun u => negb (bool_decide (id u = i))) db) + 1)%nat.
Proof.
  unfold primary_key. induction db as [|x db IH]; [cbn; lia|].
  rewrite fmap_cons. intros Hpk. apply NoDup_cons in Hpk as [Hx Hpk].
  cbn [List.filter]. case_bool_decide as Hxid; cbn [negb length].
  - rewrite forallb_filter_id; [lia|].
    apply forallb_forall. intros y Hy.
    apply negb_true_iff, bool_decide_eq_false_2. intros Hyid.
    apply Hx. rewrite Hxid, <- Hyid.
    apply list_elem_of_fmap. exists y.
    split; [reflexivity | apply list_elem_of_In, Hy].
  - specialize (IH Hpk). lia.
Qed.

(** What a request does to the table, with the freshness the INSERT
    checks. *)
Lemma serve_cases (r : request) (db : DB) :
  serve SECRET_KEY r db = db \/
  (exists user : User,
     (id user ∉ id <$> db) /\ (email user ∉ email <$> db) /\
     serve SECRET_KEY r db = db ++ [user]) \/
  (exists (user : User) (h : option pwhash),
     user ∈ db /\
     serve SECRET_KEY r db =
       (fun u => if bool_decide (id u = id user)
                 then with_password_hash user h else u) <$> db) \/
  (exists user : User,
     user ∈ db /\ email user <> ADMIN_EMAIL /\
     serve SECRET_KEY r db =
       List.filter (fun u => negb (bool_decide (id u = id user))) db).
Proof.
  destruct r; cbn [serve].
  - destruct init_admin; [|left; reflexivity].
    unfold ensure_admin. unfold_m.
    repeat case_match; simplify_eq/=; try (left; reflexivity).
    right; left. eexists. split; [|split; [|reflexivity]].
    + apply existsb_false_id. assumption.
    + apply existsb_false_email. assumption.
  - unfold login_for_access_token, authenticate_user. unfold_m.
    repeat case_match; simplify_eq/=; left; reflexivity.
  - left; reflexivity.
  - unfold get_current_user. unfold_m.
    repeat case_match; simplify_eq/=; left; reflexivity.
  - unfold change_password, bind.
    destruct (get_current_user_obj_cases SECRET_KEY utcnow tok db)
      as [->|(payload & em & actor & _ & _ & Hfind & ->)];
      [left; reflexivity|].
    unfold_m.
    repeat case_match; simplify_eq/=; try (left; reflexivity).
    match goal with
    | H : set_password _ _ _ = Return _ |- _ =>
        apply set_password_Return in H as [h ->]
    end.
    right; right; left. exists actor, (Some h).
    split; [apply (find_elem_of _ _ _ Hfind) | reflexivity].
  - unfold list_users, bind.
    destruct (get_current_user_obj_cases SECRET_KEY utcnow tok db)
      as [->|(payload & em & actor & _ & _ & _ & ->)];
      [left; reflexivity|].
    unfold_m.
    repeat case_match; simplify_eq/=; left; reflexivity.
  - unfold create_user, bind.
    destruct (get_current_user_obj_cases SECRET_KEY utcnow tok db)
      as [->|(payload & em & actor & _ & _ & _ & ->)];
      [left; reflexivity|].
    unfold_m.
    repeat case_match; simplify_eq/=; try (left; reflexivity).
    right; left. eexists. split; [|split; [|reflexivity]].
    + apply existsb_false_id. assumption.
    + apply existsb_false_email. assumption.
  - unfold delete_user, bind.
    destruct (get_current_user_obj_cases SECRET_KEY utcnow tok db)
      as [->|(payload & em & actor & _ & _ & _ & ->)];
      [left; reflexivity|].
    unfold_m.
    repeat case_match; simplify_eq/=; try (left; reflexivity).
    right; right; right. eexists. split; [|split; [|reflexivity]].
    + match goal with
      | H : List.find _ _ = Some _ |- _ => apply (find_elem_of _ _ _ H)
      end.
    + match goal with
      | H : bool_decide _ = false |- _ => apply bool_decide_eq_false_1 in H
      end.
      assumption.
Qed.

Lemma serve_keeps_constraints (r : request) (db : DB) :
  primary_key db -> unique_email db ->
  primary_key (serve SECRET_KEY r db) /\ unique_email (serve SECRET_KEY r db).
Proof.
  intros Hpk Hue.
  split; [exact (effect_primary_key _ _ (serve_effect SECRET_KEY r db) Hpk)|].
  unfold unique_email in *.
  destruct (serve_cases r db)
    as [->|[(user & _ & Hem & ->)|[(user & h & Hin & ->)
                                  |(user & _ & _ & ->)]]].
  - exact Hue.
  - rewrite fmap_app. apply NoDup_app. split; [exact Hue|]. split.
    + intros x Hx Hx'. apply list_elem_of_singleton in Hx'. subst x.
      exact (Hem Hx).
    + apply NoDup_singleton.
  - rewrite (update_hash_keeps_emails db user h Hpk Hin). exact Hue.
  - apply NoDup_fmap_filter, Hue.
Qed.

(** Both constraints of the table, the primary key and the unique email,
    hold after any sequence of requests if they held before it. *)
Theorem run_keeps_table_constraints (rs : list request) (db : DB) :
  primary_key db -> unique_email db ->
  primary_key (run SECRET_KEY rs db) /\ unique_email (run SECRET_KEY rs db).
Proof.
  revert db. induction rs as [|r rs IH]; intros db Hpk Hue.
  - split; assumption.
  - cbn [run fold_left].
    destruct (serve_keeps_constraints r db Hpk Hue) as [Hpk' Hue'].
    exact (IH _ Hpk' Hue').
Qed.

(** A request adds at most one row and removes at most one; the rows it
    keeps stay in their order, with their id, email and name. *)
Theorem serve_changes_at_most_one_row (r : request) (db : DB) :
  primary_key db ->
  let db' := serve SECRET_KEY r db in
  (length db - 1 <= length db' <= length db + 1)%nat /\
  (forall u, u ∈ db' ->
     (exists u0, u0 ∈ db /\ id u0 = id u /\ email u0 = email u /\
                 name u0 = name u) \/
     ((id u ∉ id <$> db) /\ (email u ∉ email <$> db))).
Proof.
  intros Hpk db'. subst db'.
  destruct (serve_cases r db)
    as [->|[(user & Hid & Hem & ->)|[(user & h & Hin & ->)
                                    |(user & Hin & _ & ->)]]].
  - split; [lia|]. intros u Hu. left. exists u. auto.
  - split; [rewrite length_app; cbn; lia|].
    intros u Hu. apply elem_of_app in Hu as [Hu|Hu].
    + left. exists u. auto.
    + apply list_elem_of_singleton in Hu. subst u. right. auto.
  - split; [rewrite length_fmap; lia|].
    intros u Hu. apply list_elem_of_fmap in Hu as (u0 & -> & Hu0).
    left. exists u0. split; [exact Hu0|].
    destruct (update_hash_keeps_rows db user h Hpk Hin u0 Hu0)
      as (Hi & He & Hn).
    auto.
  - split.
    + pose proof (filter_length_le
                    (fun u => negb (bool_decide (id u = id user))) db).
      pose proof (delete_removes_at_most_one db (id user) Hpk).
      lia.
    + intros u Hu. apply list_elem_of_In, filter_In in Hu as [Hu _].
      left. exists u. split; [apply list_elem_of_In, Hu | auto].
Qed.

End ConstraintFacts.

(** ** What the endpoints return *)

Section MoreEndpointFacts.
Context {C : CryptContext} {J : JOSE}.
Variable SECRET_KEY : pystr.

Lemma find_app_l {A} (p : A -> bool) (l k : list A) (x : A) :
  List.find p l = Some x -> List.find p (l ++ k) = Some x.
Proof.
  induction l as [|y l IH]; cbn; [discriminate|].
  destruct (p y); [intros H; exact H | exact IH].
Qed.

Lemma find_app_r {A} (p : A -> bool) (l k : list A) :
  List.find p l = None -> List.find p (l ++ k) = List.find p k.
Proof.
  induction l as [|y l IH]; cbn; [reflexivity|].
  destruct (p y); [discriminate | exact IH].
Qed.

Lemma find_fmap_keeping {A} (p : A -> bool) (f : A -> A) (l : list A) :
  (forall x, x ∈ l -> p (f x) = p x) ->
  List.find p (f <$> l) = f <$> List.find p l.
Proof.
  induction l as [|y l IH]; intros Hp; [reflexivity|].
  rewrite fmap_cons. cbn [List.find].
  rewrite (Hp y) by apply list_elem_of_here.
  destruct (p y); [reflexivity|].
  apply IH. intros x Hx. apply Hp, list_elem_of_further, Hx.
Qed.

Lemma find_filter_none {A} (p q : A -> bool) (l : list A) :
  (forall x, x ∈ l -> p x = true -> q x = false) ->
  List.find p (List.filter q l) = None.
Proof.
  intros Hpq. destruct (List.find p _) as [x|] eqn:Hfind; [|reflexivity].
  apply find_elem_of in Hfind as [Hin Hpx].
  apply list_elem_of_In, filter_In in Hin as [Hin Hqx].
  rewrite (Hpq x) in Hqx by (try apply list_elem_of_In; assumption).
  discriminate Hqx.
Qed.

Lemma find_filter_keeps {A} (p q : A -> bool) (l : list A) (x : A) :
  List.find p l = Some x -> q x = true ->
  List.find p (List.filter q l) = Some x.
Proof.
  intros Hfind Hq. induction l as [|y l IH]; [discriminate|].
  cbn [List.find List.filter] in *. destruct (p y) eqn:Hpy.
  - injection Hfind as ->. rewrite Hq. cbn [List.find]. rewrite Hpy.
    reflexivity.
  - destruct (q y); [cbn [List.find]; rewrite Hpy|]; exact (IH Hfind).
Qed.

(** The row a token resolves to is the first row with its email. *)
Lemma resolved_actor_is_first (utcnow : Z) (tok : token) (db : DB)
    (actor : User) :
  get_current_user_obj SECRET_KEY utcnow tok db = (Return actor, db) ->
  List.find (fun u => bool_decide (email u = email actor)) db = Some actor.
Proof.
  intros Hactor.
  destruct (get_current_user_obj_cases SECRET_KEY utcnow tok db)
    as [Hraise|(payload & em & user & _ & _ & Hfind & Hret)].
  - rewrite Hraise in Hactor. discriminate Hactor.
  - rewrite Hret in Hactor. injection Hactor as ->.
    apply find_elem_of in Hfind as Hu. destruct Hu as [_ Hem].
    apply bool_decide_eq_true_1 in Hem. rewrite Hem. exact Hfind.
Qed.

(** A token resolves in a longer table as it did in the table. *)
Lemma resolved_actor_app (utcnow : Z) (tok : token) (db k : DB)
    (actor : User) :
  get_current_user_obj SECRET_KEY utcnow tok db = (Return actor, db) ->
  get_current_user_obj SECRET_KEY utcnow tok (db ++ k) =
    (Return actor, db ++ k).
Proof.
  intros Hactor.
  destruct (get_current_user_obj_cases SECRET_KEY utcnow tok db)
    as [Hraise|(payload & em & user & Hdec & Hsub & Hfind & Hret)].
  - rewrite Hraise in Hactor. discriminate Hactor.
  - rewrite Hret in Hactor. injection Hactor as ->.
    unfold get_current_user_obj. rewrite Hdec, Hsub. unfold_m.
    rewrite (find_app_l _ _ k _ Hfind). reflexivity.
Qed.

(** POST /auth/token, by the first row with the email and by what
    [verify_password] returns or raises for it. *)
Lemma login_for_access_token_eq (utcnow : Z) (username password : pystr)
    (db : DB) :
  login_for_access_token SECRET_KEY utcnow username password db =
    (match List.find (fun u => bool_decide (email u = username)) db with
     | Some user =>
         match verify_password user password with
         | Return true => Return (login_response SECRET_KEY utcnow user)
         | Return false => Raise incorrect_login
         | Raise e => Raise e
         | Crash e => Crash e
         end
     | None => Raise incorrect_login
     end, db).
Proof.
  unfold login_for_access_token, authenticate_user. unfold_m.
  destruct (List.find _ db) as [user|]; [|reflexivity].
  destruct (verify_password user password) as [[|]| |]; reflexivity.
Qed.

(** POST /users with a field missing: for the admin, a body whose email
    or password is absent, null or the empty string gets 400 "email and
    password are required", and nothing is inserted. *)
Theorem create_user_requires_email_and_password (utcnow now_ms : Z)
    (uuid4 : pystr) (salt : N) (tok : token) (data : gmap string pystr)
    (db : DB) (actor : User) :
  get_current_user_obj SECRET_KEY utcnow tok db = (Return actor, db) ->
  email actor = ADMIN_EMAIL ->
  data !! "email" = None \/ data !! "email" = Some (py "") \/
  data !! "password" = None \/ data !! "password" = Some (py "") ->
  create_user SECRET_KEY utcnow now_ms uuid4 salt tok data db =
    (Raise (mkHTTPException 400 "email and password are required" []), db).
Proof.
  intros Hactor Hadm Hmissing. unfold create_user, bind. rewrite Hactor.
  rewrite (bool_decide_eq_true_2 _ Hadm). cbn [negb].
  assert (Hfalsy : truthy (data !! "email") = false \/
                   truthy (data !! "password") = false).
  { destruct Hmissing as [H | [H | [H | H]]]; rewrite H; auto. }
  destruct Hfalsy as [-> | ->]; cbn [negb orb];
    rewrite ?orb_true_r; reflexivity.
Qed.

(** The three endpoints that write are all-or-nothing: when one of them
    does not return its success body, the table is as it was. *)
Theorem failed_write_leaves_table (utcnow : Z) (tok : token) (db : DB) :
  (forall (now_ms : Z) (uuid4 : pystr) (salt : N) (data : gmap string pystr),
     let r := create_user SECRET_KEY utcnow now_ms uuid4 salt tok data db in
     (forall out, fst r <> Return out) -> snd r = db) /\
  (forall user_id' : pystr,
     let r := delete_user SECRET_KEY utcnow tok user_id' db in
     (forall msg, fst r <> Return msg) -> snd r = db) /\
  (forall (salt : N) (data : gmap string pystr),
     let r := change_password SECRET_KEY utcnow salt tok data db in
     (forall msg, fst r <> Return msg) -> snd r = db).
Proof.
  split; [|split].
  - intros now_ms uuid4 salt data r. subst r. unfold create_user, bind.
    destruct (get_current_user_obj_cases SECRET_KEY utcnow tok db)
      as [->|(payload & em & actor & _ & _ & _ & ->)]; [reflexivity|].
    unfold_m. repeat case_match; simplify_eq/=; try reflexivity.
    intros Hnever. destruct (Hnever _ eq_refl).
  - intros user_id' r. subst r. unfold delete_user, bind.
    destruct (get_current_user_obj_cases SECRET_KEY utcnow tok db)
      as [->|(payload & em & actor & _ & _ & _ & ->)]; [reflexivity|].
    unfold_m. repeat case_match; simplify_eq/=; try reflexivity.
    intros Hnever. destruct (Hnever _ eq_refl).
  - intros salt data r. subst r. unfold change_password, bind.
    destruct (get_current_user_obj_cases SECRET_KEY utcnow tok db)
      as [->|(payload & em & actor & _ & _ & _ & ->)]; [reflexivity|].
    unfold_m. repeat case_match; simplify_eq/=; try reflexivity.
    intros Hnever. destruct (Hnever _ eq_refl).
Qed.

(** DELETE /users/{id} by the admin on the id of a row that is not an
    admin row: the row is gone, every other row is kept, the table is one
    row shorter, and the same request again gets 404. *)
Theorem delete_user_removes_the_row (utcnow : Z) (tok : token) (db : DB)
    (actor target : User) :
  get_current_user_obj SECRET_KEY utcnow tok db = (Return actor, db) ->
  email actor = ADMIN_EMAIL ->
  primary_key db ->
  target ∈ db ->
  email target <> ADMIN_EMAIL ->
  let db' := List.filter (fun u => negb (bool_decide (id u = id target))) db in
  delete_user SECRET_KEY utcnow tok (id target) db =
    (Return {| message := "User deleted" |}, db') /\
  (id target ∉ id <$> db') /\
  (forall u, u ∈ db -> id u <> id target -> u ∈ db') /\
  length db = S (length db') /\
  delete_user SECRET_KEY utcnow tok (id target) db' =
    (Raise (mkHTTPException 404 "User not found" []), db').
Proof.
  intros Hactor Hadm Hpk Htarget Hne db'.
  assert (Hgone : id target ∉ id <$> db').
  { intros Hin. apply list_elem_of_fmap in Hin as (u & Hid & Hu).
    apply list_elem_of_In, filter_In in Hu as [_ Hu].
    apply negb_true_iff, bool_decide_eq_false_1 in Hu. auto. }
  assert (Hkept : forall u, u ∈ db -> id u <> id target -> u ∈ db').
  { intros u Hu Hid. apply list_elem_of_In, filter_In.
    split; [apply list_elem_of_In, Hu|].
    apply negb_true_iff, bool_decide_eq_false_2, Hid. }
  split; [|split; [exact Hgone|split; [exact Hkept|split]]].
  - unfold delete_user, bind. rewrite Hactor.
    rewrite (bool_decide_eq_true_2 _ Hadm). cbn [negb].
    unfold select_by_id. rewrite (find_id_primary_key db target Hpk Htarget).
    rewrite (bool_decide_eq_false_2 _ Hne). reflexivity.
  - pose proof (delete_removes_at_most_one db (id target) Hpk) as Hle.
    fold db' in Hle.
    assert (Hlt : (length db' < length db)%nat); [|lia].
    subst db'. clear -Htarget. induction db as [|x db IH].
    + inversion Htarget.
    + cbn [List.filter].
      apply elem_of_cons in Htarget as [<-|Htarget].
      * rewrite bool_decide_eq_true_2 by reflexivity. cbn [negb length].
        pose proof (filter_length_le
          (fun u => negb (bool_decide (id u = id target))) db). lia.
      * specialize (IH Htarget).
        destruct (negb _); cbn [length]; lia.
  - assert (Hactor' : get_current_user_obj SECRET_KEY utcnow tok db' =
                        (Return actor, db')).
    { destruct (get_current_user_obj_cases SECRET_KEY utcnow tok db)
        as [Hraise|(payload & em & user & Hdec & Hsub & Hfind & Hret)].
      - rewrite Hraise in Hactor. discriminate Hactor.
      - rewrite Hret in Hactor. injection Hactor as ->.
        unfold get_current_user_obj. rewrite Hdec, Hsub. unfold_m.
        unfold db'. rewrite (find_filter_keeps _ _ _ _ Hfind); [reflexivity|].
        apply negb_true_iff, bool_decide_eq_false_2. intros Hid.
        apply Hne. rewrite <- Hadm. f_equal. symmetry.
        apply (primary_key_inj db actor target Hpk); [|exact Htarget|exact Hid].
        apply (find_elem_of _ _ _ Hfind). }
    unfold delete_user, bind. rewrite Hactor'.
    rewrite (bool_decide_eq_true_2 _ Hadm). cbn [negb].
    unfold select_by_id. rewrite (find_none_id db' (id target) Hgone).
    reflexivity.
Qed.

End MoreEndpointFacts.

(** ** Requests in sequence *)

Section SequenceFacts.
Context {C : CryptContext} {J : JOSE}.
Variable SECRET_KEY : pystr.

Lemma NoDup_fmap_eq {A B} (g : A -> B) (l : list A) (a b : A) :
  NoDup (g <$> l) -> a ∈ l -> b ∈ l -> g a = g b -> a = b.
Proof.
  induction l as [|x l IH]; intros Hnd Ha Hb Hg.
  - inversion Ha.
  - rewrite fmap_cons in Hnd. apply NoDup_cons in Hnd as [Hx Hnd].
    apply elem_of_cons in Ha as [->|Ha]; apply elem_of_cons in Hb as [->|Hb].
    + reflexivity.
    + exfalso. apply Hx. rewrite Hg. apply list_elem_of_fmap. eauto.
    + exfalso. apply Hx. rewrite <- Hg. apply list_elem_of_fmap. eauto.
    + apply IH; assumption.
Qed.

Lemma existsb_fresh (user : User) (db : DB) :
  (id user ∉ id <$> db) -> (email user ∉ email <$> db) ->
  existsb (fun u => bool_decide (id u = id user)
                    || bool_decide (email u = email user)) db = false.
Proof.
  intros Hid Hem. apply not_true_iff_false. intros Hex.
  apply existsb_exists in Hex as (u & Hu & Hor).
  apply list_elem_of_In in Hu.
  apply orb_true_iff in Hor as [H|H]; apply bool_decide_eq_true_1 in H.
  - apply Hid. rewrite <- H. apply list_elem_of_fmap. eauto.
  - apply Hem. rewrite <- H. apply list_elem_of_fmap. eauto.
Qed.

Lemma find_none_fresh_email (db : DB) (email' : pystr) :
  (email' ∉ email <$> db) ->
  List.find (fun u => bool_decide (email u = email')) db = None.
Proof.
  intros Hfresh. apply find_none_email. intros u Hu Hem.
  apply Hfresh. rewrite <- Hem. apply list_elem_of_fmap. eauto.
Qed.

Lemma delete_user_Return (utcnow : Z) (tok : token) (user_id' : pystr)
    (db db' : DB) (msg : Message) :
  delete_user SECRET_KEY utcnow tok user_id' db = (Return msg, db') ->
  exists user,
    List.find (fun u => bool_decide (id u = user_id')) db = Some user /\
    db' = List.filter (fun u => negb (bool_decide (id u = id user))) db.
Proof.
  unfold delete_user, bind.
  destruct (get_current_user_obj_cases SECRET_KEY utcnow tok db)
    as [->|(payload & em & actor & _ & _ & _ & ->)]; [discriminate|].
  unfold_m. repeat case_match; simplify_eq/=; try discriminate.
  intros [= _ <-]. eauto.
Qed.

Context {IC : IdealCryptContext C}.

(** A login against a row whose hash was made of [secret]: a password
    that passlib accepts gets the token when it is [secret] and the 401
    when it is not, and a password that passlib refuses ends the request
    in passlib's exception. *)
Lemma login_against_hash (db : DB) (user : User) (h : pwhash) (salt : N)
    (secret : pystr) :
  List.find (fun u => bool_decide (email u = email user)) db = Some user ->
  password_hash user = Some h ->
  ctx_hash salt secret = Return h ->
  forall (t : Z) (q : pystr),
    (~ refused q ->
       login_for_access_token SECRET_KEY t (email user) q db =
         (if bool_decide (q = secret)
          then Return (login_response SECRET_KEY t user)
          else Raise incorrect_login, db)) /\
    (refused q ->
       exists e : PyException,
         login_for_access_token SECRET_KEY t (email user) q db =
           (Crash e, db)).
Proof.
  intros Hfind Hhash Hh t q.
  rewrite login_for_access_token_eq, Hfind.
  unfold verify_password. rewrite Hhash. split.
  - intros Hq. rewrite (ctx_verify_hash salt q secret h Hh Hq).
    case_bool_decide; reflexivity.
  - intros Hq. destruct (ctx_verify_refused q h Hq) as [e ->]. eauto.
Qed.

(** POST /users by the admin with a fresh email and a password whose
    first 72 characters hold no NUL (and no lone surrogate in the strings
    that go to the table): the new row is appended with the id of
    [uuid4], no verified flag and the hash of those characters. A login
    with the new email then gets the token with exactly those characters
    as the password, the 401 with any other password passlib accepts, and
    passlib's exception with one it refuses. *)
Theorem create_user_then_login (utcnow now_ms : Z) (uuid4 : pystr)
    (salt : N) (tok : token) (data : gmap string pystr) (db : DB)
    (actor : User) :
  get_current_user_obj SECRET_KEY utcnow tok db = (Return actor, db) ->
  email actor = ADMIN_EMAIL ->
  truthy (data !! "email") = true ->
  truthy (data !! "password") = true ->
  (str_of (data !! "email") ∉ email <$> db) ->
  (uuid4 ∉ id <$> db) ->
  ~ Exists surrogate (str_of (data !! "email")) ->
  ~ Exists surrogate (default [] (data !! "name")) ->
  ~ Exists surrogate (str_of (data !! "password")) ->
  (0%N ∉ take 72 (str_of (data !! "password"))) ->
  let email' := str_of (data !! "email") in
  let password := str_of (data !! "password") in
  exists h : pwhash,
    ctx_hash salt (take 72 password) = Return h /\
    let row :=
      {| id := uuid4; name := data !! "name"; email := email';
         email_verified := None; image := None;
         password_hash := Some h;
         created_at := now_ms; updated_at := now_ms |} in
    create_user SECRET_KEY utcnow now_ms uuid4 salt tok data db =
      (Return {| out_id := uuid4; out_email := email';
                 out_name := data !! "name" |}, db ++ [row]) /\
    forall (t : Z) (q : pystr),
      (~ refused q ->
         login_for_access_token SECRET_KEY t email' q (db ++ [row]) =
           (if bool_decide (q = take 72 password)
            then Return (login_response SECRET_KEY t row)
            else Raise incorrect_login, db ++ [row])) /\
      (refused q ->
         exists e : PyException,
           login_for_access_token SECRET_KEY t email' q (db ++ [row]) =
             (Crash e, db ++ [row])).
Proof.
  intros Hactor Hadm Hem Hpw Hfresh Huuid _ _ Henc Hnul email' password.
  destruct (ctx_hash_accepted salt (take 72 password)) as [h Hh].
  { intros Hr. apply Hnul. apply refused_take_72; assumption. }
  exists h. split; [exact Hh|]. intros row. split.
  - unfold create_user, bind. rewrite Hactor.
    rewrite (bool_decide_eq_true_2 _ Hadm), Hem, Hpw. cbn [negb orb].
    unfold select_by_email. fold email' password.
    rewrite (find_none_fresh_email db email' Hfresh).
    unfold lift. rewrite (set_password_encodable _ salt password Henc), Hh.
    cbn [outcome_map]. unfold session_insert.
    rewrite existsb_fresh by assumption. reflexivity.
  - apply (login_against_hash (db ++ [row]) row h salt (take 72 password));
      [|reflexivity|exact Hh].
    rewrite find_app_r by (apply find_none_fresh_email, Hfresh).
    cbn [List.find email row].
    rewrite bool_decide_eq_true_2 by reflexivity. reflexivity.
Qed.

(** POST /auth/change-password with the right current password and a
    new password whose first 72 characters hold no NUL: only the actor's
    row changes, to the hash of those characters; a login with the
    actor's email then gets the token with exactly those characters, the
    401 with any other password passlib accepts, and passlib's exception
    with one it refuses; and the token that made the change still
    resolves, to the changed row. *)
Theorem change_password_then_login (utcnow : Z) (salt : N) (tok : token)
    (data : gmap string pystr) (db : DB) (actor : User) :
  get_current_user_obj SECRET_KEY utcnow tok db = (Return actor, db) ->
  primary_key db ->
  truthy (data !! "current_password") = true ->
  truthy (data !! "new_password") = true ->
  verify_password actor (str_of (data !! "current_password")) = Return true ->
  ~ Exists surrogate (str_of (data !! "new_password")) ->
  (0%N ∉ take 72 (str_of (data !! "new_password"))) ->
  let new_password := str_of (data !! "new_password") in
  exists h : pwhash,
    ctx_hash salt (take 72 new_password) = Return h /\
    let actor' := with_password_hash actor (Some h) in
    let db' :=
      (fun u => if bool_decide (id u = id actor) then actor' else u) <$> db in
    change_password SECRET_KEY utcnow salt tok data db =
      (Return {| message := "Password changed successfully" |}, db') /\
    (forall u, u ∈ db -> id u <> id actor -> u ∈ db') /\
    (forall (t : Z) (q : pystr),
       (~ refused q ->
          login_for_access_token SECRET_KEY t (email actor) q db' =
            (if bool_decide (q = take 72 new_password)
             then Return (login_response SECRET_KEY t actor')
             else Raise incorrect_login, db')) /\
       (refused q ->
          exists e : PyException,
            login_for_access_token SECRET_KEY t (email actor) q db' =
              (Crash e, db'))) /\
    get_current_user_obj SECRET_KEY utcnow tok db' = (Return actor', db').
Proof.
  intros Hactor Hpk Hcp Hnp Hver Henc Hnul new_password.
  destruct (ctx_hash_accepted salt (take 72 new_password)) as [h Hh].
  { intros Hr. apply Hnul. apply refused_take_72; assumption. }
  exists h. split; [exact Hh|]. intros actor' db'.
  pose proof (resolved_actor_is_first SECRET_KEY _ _ _ _ Hactor) as Hfirst.
  assert (Hin : actor ∈ db) by apply (find_elem_of _ _ _ Hfirst).
  assert (Hfind' : forall e,
            List.find (fun u => bool_decide (email u = e)) db' =
              (fun u => if bool_decide (id u = id actor) then actor' else u)
                <$> List.find (fun u => bool_decide (email u = e)) db).
  { intros e. apply find_fmap_keeping. intros u Hu.
    destruct (update_hash_keeps_rows db actor (Some h) Hpk Hin u Hu)
      as (_ & He & _).
    cbn zeta in He. fold actor' in He. cbn beta. rewrite He.
    reflexivity. }
  split; [|split; [|split]].
  - unfold change_password, bind. rewrite Hactor, Hcp, Hnp. cbn [negb orb].
    unfold lift. rewrite Hver. cbn [negb]. fold new_password.
    rewrite (set_password_encodable actor salt new_password Henc), Hh.
    reflexivity.
  - intros u Hu Hid. apply list_elem_of_fmap. exists u.
    split; [|exact Hu]. rewrite bool_decide_eq_false_2 by exact Hid.
    reflexivity.
  - apply (login_against_hash db' actor' h salt (take 72 new_password));
      [|reflexivity|exact Hh].
    change (email actor') with (email actor). rewrite Hfind', Hfirst.
    cbn [fmap option_fmap option_map].
    rewrite bool_decide_eq_true_2 by reflexivity. reflexivity.
  - destruct (get_current_user_obj_cases SECRET_KEY utcnow tok db)
      as [Hraise|(payload & em & user & Hdec & Hsub & Hfind & Hret)].
    + rewrite Hraise in Hactor. discriminate Hactor.
    + rewrite Hret in Hactor. injection Hactor as ->.
      unfold get_current_user_obj. rewrite Hdec, Hsub. unfold_m.
      rewrite Hfind', Hfind. cbn [fmap option_fmap option_map].
      rewrite bool_decide_eq_true_2 by reflexivity. reflexivity.
Qed.

End SequenceFacts.

(** ** Who can still get in *)

Section AccessFacts.
Context {C : CryptContext} {J : JOSE}.
Variable SECRET_KEY : pystr.

(** GET /auth/me, by the payload of the token. *)
Lemma get_current_user_eq (utcnow : Z) (tok : token) (db : DB)
    (payload : Claims) (email' : pystr) :
  jwt_decode tok SECRET_KEY [ALGORITHM] utcnow = inl payload ->
  sub payload = Some email' ->
  get_current_user SECRET_KEY utcnow tok db =
    (match List.find (fun u => bool_decide (email u = email')) db with
     | Some user =>
         Return {| me_user_id := id user; me_email := email user;
                   me_name := name user;
                   me_email_verified :=
                     match email_verified user with
                     | Some _ => true
                     | None => false
                     end |}
     | None => Raise credentials_exception
     end, db).
Proof.
  intros Hdec Hsub. unfold get_current_user. rewrite Hdec, Hsub. unfold_m.
  destruct (List.find _ db); reflexivity.
Qed.

(** Once DELETE /users/{id} has succeeded on a row, nobody gets in under
    the email of that row: a login with it is refused whatever the
    password, and a token for it, however valid, is answered 401. *)
Theorem deleted_user_is_locked_out (utcnow : Z) (tok : token) (db db' : DB)
    (target : User) (msg : Message) :
  primary_key db ->
  unique_email db ->
  target ∈ db ->
  delete_user SECRET_KEY utcnow tok (id target) db = (Return msg, db') ->
  (forall (t : Z) (q : pystr),
     login_for_access_token SECRET_KEY t (email target) q db' =
       (Raise incorrect_login, db')) /\
  (forall (t : Z) (tok' : token) (payload : Claims),
     jwt_decode tok' SECRET_KEY [ALGORITHM] t = inl payload ->
     sub payload = Some (email target) ->
     get_current_user SECRET_KEY t tok' db' =
       (Raise credentials_exception, db') /\
     get_current_user_obj SECRET_KEY t tok' db' =
       (Raise credentials_exception, db')).
Proof.
  intros Hpk Hue Htarget Hdel.
  apply delete_user_Return in Hdel as (user & Hfind & ->).
  rewrite (find_id_primary_key db target Hpk Htarget) in Hfind.
  injection Hfind as <-.
  assert (Hnone :
    List.find (fun u => bool_decide (email u = email target))
      (List.filter (fun u => negb (bool_decide (id u = id target))) db) = None).
  { apply find_filter_none. intros u Hu Hem.
    apply bool_decide_eq_true_1 in Hem.
    assert (u = target) as ->
      by (apply (NoDup_fmap_eq email db); assumption).
    rewrite bool_decide_eq_true_2 by reflexivity. reflexivity. }
  split.
  - intros t q. rewrite login_for_access_token_eq, Hnone. reflexivity.
  - intros t tok' payload Hdec Hsub. split.
    + rewrite (get_current_user_eq t tok' _ payload _ Hdec Hsub), Hnone.
      reflexivity.
    + unfold get_current_user_obj. rewrite Hdec, Hsub. unfold_m.
      rewrite Hnone. reflexivity.
Qed.

(** The owner of a row without a password hash cannot give it one:
    its owner cannot log in, and POST /auth/change-password with the
    owner's token is refused with a 400 whatever the body, leaving the
    table as it was. *)
Theorem passwordless_user_stays_passwordless (utcnow : Z) (tok : token)
    (db : DB) (actor : User) :
  get_current_user_obj SECRET_KEY utcnow tok db = (Return actor, db) ->
  password_hash actor = None ->
  (forall (t : Z) (q : pystr),
     login_for_access_token SECRET_KEY t (email actor) q db =
       (Raise incorrect_login, db)) /\
  (forall (salt : N) (data : gmap string pystr),
     exists e : HTTPException,
       change_password SECRET_KEY utcnow salt tok data db = (Raise e, db) /\
       status_code e = 400%Z).
Proof.
  intros Hactor Hnone.
  assert (Hver : forall q, verify_password actor q = Return false)
    by (intros q; unfold verify_password; rewrite Hnone; reflexivity).
  split.
  - intros t q. rewrite login_for_access_token_eq.
    rewrite (resolved_actor_is_first SECRET_KEY _ _ _ _ Hactor), Hver.
    reflexivity.
  - intros salt data. unfold change_password, bind. rewrite Hactor.
    destruct (negb (truthy (data !! "current_password"))
              || negb (truthy (data !! "new_password")));
      [eexists; split; reflexivity|].
    unfold lift. rewrite Hver. cbn [negb]. eexists; split; reflexivity.
Qed.

Lemma find_email_unique (db : DB) (u : User) :
  unique_email db -> u ∈ db ->
  List.find (fun v => bool_decide (email v = email u)) db = Some u.
Proof.
  intros Hue Hu.
  destruct (List.find _ db) as [v|] eqn:Hfind.
  - apply find_elem_of in Hfind as [Hin Hem].
    apply bool_decide_eq_true_1 in Hem.
    f_equal. apply (NoDup_fmap_eq email db); assumption.
  - exfalso. apply list_elem_of_In in Hu.
    pose proof (find_none _ _ Hfind u Hu) as Hf. cbn in Hf.
    rewrite bool_decide_eq_true_2 in Hf by reflexivity. discriminate Hf.
Qed.

(** A token stands for a row by its subject alone: it resolves to a row
    exactly when it decodes and its subject is the email of that row. The
    ["user_id"] in the payload plays no part, so a token outlives its row
    if another row gets the email. *)
Theorem token_is_resolved_by_email_alone (utcnow : Z) (tok : token)
    (db : DB) (u : User) :
  unique_email db ->
  get_current_user_obj SECRET_KEY utcnow tok db = (Return u, db) <->
  u ∈ db /\
  exists payload : Claims,
    jwt_decode tok SECRET_KEY [ALGORITHM] utcnow = inl payload /\
    sub payload = Some (email u).
Proof.
  intros Hue. split.
  - intros Hres.
    destruct (get_current_user_obj_cases SECRET_KEY utcnow tok db)
      as [Hraise|(payload & em & user & Hdec & Hsub & Hfind & Hret)].
    + rewrite Hraise in Hres. discriminate Hres.
    + rewrite Hret in Hres. injection Hres as ->.
      apply find_elem_of in Hfind as [Hin Hem].
      apply bool_decide_eq_true_1 in Hem.
      split; [exact Hin|]. exists payload. rewrite Hem. auto.
  - intros (Hu & payload & Hdec & Hsub).
    unfold get_current_user_obj. rewrite Hdec, Hsub. unfold_m.
    rewrite (find_email_unique db u Hue Hu). reflexivity.
Qed.

(** GET /auth/me repeats the dependency of the other endpoints: it
    returns the id, email, name and verified flag of the row the
    dependency resolves, and raises what the dependency raises. *)
Theorem get_current_user_agrees_with_dependency (utcnow : Z) (tok : token)
    (db : DB) :
  get_current_user SECRET_KEY utcnow tok db =
    (match fst (get_current_user_obj SECRET_KEY utcnow tok db) with
     | Return user =>
         Return {| me_user_id := id user; me_email := email user;
                   me_name := name user;
                   me_email_verified :=
                     bool_decide (email_verified user <> None) |}
     | Raise e => Raise e
     | Crash e => Crash e
     end, db).
Proof.
  unfold get_current_user, get_current_user_obj.
  destruct (jwt_decode tok SECRET_KEY [ALGORITHM] utcnow) as [payload|];
    [|reflexivity].
  destruct (sub payload); [|reflexivity]. unfold_m.
  destruct (List.find _ db) as [user|]; [|reflexivity]. cbn [fst].
  destruct (email_verified user); reflexivity.
Qed.

Context {IJ : IdealJOSE J}.

(** The token of a login is good for 30 minutes: until then GET /auth/me
    answers with the id, email and name the login returned, and from the
    next second on it answers 401. *)
Theorem login_token_is_valid_for_30_minutes (issued : Z)
    (username password : pystr) (db : DB) (resp : TokenResponse) :
  login_for_access_token SECRET_KEY issued username password db =
    (Return resp, db) ->
  (forall t : Z,
     (t <= issued + 1800)%Z ->
     exists me : MeResponse,
       get_current_user SECRET_KEY t (access_token resp) db =
         (Return me, db) /\
       me_user_id me = tr_user_id resp /\ me_email me = username /\
       me_name me = tr_name resp) /\
  (forall t : Z,
     (issued + 1800 < t)%Z ->
     get_current_user SECRET_KEY t (access_token resp) db =
       (Raise credentials_exception, db)).
Proof.
  rewrite login_for_access_token_eq.
  destruct (List.find _ db) as [user|] eqn:Hfind; [|discriminate].
  destruct (verify_password user password) as [[|]| |]; try discriminate.
  intros [= <-]. unfold login_response. cbn [access_token tr_user_id tr_name].
  apply find_elem_of in Hfind as Hu. destruct Hu as [_ Hem].
  apply bool_decide_eq_true_1 in Hem.
  split.
  - intros t Ht. eexists.
    rewrite (get_current_user_eq t _ db
               {| sub := Some (email user); user_id := Some (id user);
                  exp := Some (issued + 1800)%Z |} (email user));
      [|rewrite jwt_decode_encode; cbn [exp];
        destruct (Z.ltb_spec (issued + 1800) t); [lia | reflexivity]
       |reflexivity].
    rewrite Hem, Hfind. cbn [me_user_id me_email me_name]. auto.
  - intros t Ht. unfold get_current_user.
    rewrite jwt_decode_encode. cbn [exp].
    destruct (Z.ltb_spec (issued + 1800) t); [reflexivity | lia].
Qed.

(** A lifetime of zero is no lifetime: [create_access_token] makes the
    same token for [timedelta(0)] as for no lifetime at all, good for 15
    minutes; and a token made with a negative lifetime is rejected from
    the moment it is issued. *)
Theorem access_token_default_lifetime (data : Claims) (issued : Z) :
  create_access_token SECRET_KEY data (Some 0%Z) issued =
    create_access_token SECRET_KEY data None issued /\
  (forall t : Z,
     (t <= issued + 900)%Z ->
     jwt_decode (create_access_token SECRET_KEY data (Some 0%Z) issued)
       SECRET_KEY [ALGORITHM] t =
       inl {| sub := sub data; user_id := user_id data;
              exp := Some (issued + 900)%Z |}) /\
  (forall t : Z,
     (issued + 900 < t)%Z ->
     jwt_decode (create_access_token SECRET_KEY data (Some 0%Z) issued)
       SECRET_KEY [ALGORITHM] t = inr ExpiredSignatureError) /\
  (forall ttl t : Z,
     (ttl < 0)%Z -> (issued <= t)%Z ->
     jwt_decode (create_access_token SECRET_KEY data (Some ttl) issued)
       SECRET_KEY [ALGORITHM] t = inr ExpiredSignatureError).
Proof.
  split; [reflexivity|]. unfold create_access_token.
  split; [|split].
  - intros t Ht. rewrite jwt_decode_encode. cbn [exp Z.eqb].
    destruct (Z.ltb_spec (issued + 15 * 60) t); [lia | reflexivity].
  - intros t Ht. rewrite jwt_decode_encode. cbn [exp Z.eqb].
    destruct (Z.ltb_spec (issued + 15 * 60) t); [reflexivity | lia].
  - intros ttl t Httl Ht. rewrite jwt_decode_encode. cbn [exp].
    destruct (Z.eqb_spec ttl 0); [lia|].
    destruct (Z.ltb_spec (issued + ttl) t); [reflexivity | lia].
Qed.

End AccessFacts.

(** ** The admin bootstrap and the reset *)

Section BootstrapFacts.
Context {C : CryptContext} {J : JOSE}.
Variable SECRET_KEY : pystr.

Lemma find_admin_Some (db : DB) (a : User) :
  a ∈ db -> is_admin a ->
  exists a', List.find (fun u => bool_decide (email u = ADMIN_EMAIL)) db
             = Some a'.
Proof.
  intros Ha Hadm.
  destruct (List.find _ db) as [a'|] eqn:Hfind; [eauto|].
  apply list_elem_of_In in Ha.
  pose proof (find_none _ _ Hfind a Ha) as Hf. cbn in Hf.
  rewrite bool_decide_eq_true_2 in Hf by exact Hadm. discriminate Hf.
Qed.

Lemma set_password_123456 (u : User) (salt : N) :
  set_password u salt (py "123456") =
    outcome_map (fun h => with_password_hash u (Some h))
      (ctx_hash salt (py "123456")).
Proof. reflexivity. Qed.

Lemma accepted_123456 : ~ refused (py "123456").
Proof. apply (bool_decide_unpack _). vm_compute. exact I. Qed.

Lemma existsb_taken_id (i e : pystr) (db : DB) :
  (i ∈ id <$> db) ->
  existsb (fun u => bool_decide (id u = i) || bool_decide (email u = e)) db
    = true.
Proof.
  intros Hin. apply list_elem_of_fmap in Hin as (u & Hid & Hu).
  apply existsb_exists. exists u. split; [apply list_elem_of_In, Hu|].
  rewrite bool_decide_eq_true_2 by (symmetry; exact Hid). reflexivity.
Qed.

Lemma admin_row_fresh (db : DB) (uuid4 : pystr) :
  (forall u, u ∈ db -> email u <> ADMIN_EMAIL) -> (uuid4 ∉ id <$> db) ->
  existsb (fun u => bool_decide (id u = uuid4)
                    || bool_decide (email u = ADMIN_EMAIL)) db = false.
Proof.
  intros Hnone Huuid.
  apply (existsb_fresh
           {| id := uuid4; name := None; email := ADMIN_EMAIL;
              email_verified := None; image := None; password_hash := None;
              created_at := 0; updated_at := 0 |} db Huuid).
  cbn [email]. intros Hin. apply list_elem_of_fmap in Hin as (u & Hem & Hu).
  exact (Hnone u Hu (eq_sym Hem)).
Qed.

Context {IC : IdealCryptContext C}.

(** The script of init_admin.py and the startup block of main.py leave
    the same table. The script returns exactly when the table then holds
    an admin row, and otherwise stops on the [IntegrityError] of an id
    that is taken; the startup block never raises. *)
Theorem create_admin_user_like_startup (now_ms : Z) (uuid4 : pystr)
    (salt : N) (db : DB) :
  let r := create_admin_user now_ms uuid4 salt db in
  snd r = snd (ensure_admin now_ms uuid4 salt db) /\
  fst (ensure_admin now_ms uuid4 salt db) = Return tt /\
  (fst r = Return tt \/ fst r = Crash IntegrityError) /\
  (fst r = Return tt <-> exists a, a ∈ snd r /\ is_admin a) /\
  (fst r = Crash IntegrityError -> snd r = db /\ (uuid4 ∈ id <$> db)).
Proof.
  intros r. subst r. unfold create_admin_user, ensure_admin. unfold_m.
  change (py "admin@test.com") with ADMIN_EMAIL.
  destruct (List.find (fun u => bool_decide (email u = ADMIN_EMAIL)) db)
    as [a|] eqn:Hfind.
  - cbn [fst snd]. repeat split; auto; try discriminate.
    intros _. apply find_elem_of in Hfind as [Ha Hem].
    apply bool_decide_eq_true_1 in Hem. eauto.
  - rewrite set_password_123456.
    destruct (ctx_hash_accepted salt _ accepted_123456) as [h ->].
    cbn [outcome_map email id with_password_hash].
    assert (Hnone : forall u, u ∈ db -> email u <> ADMIN_EMAIL).
    { intros u Hu Hem. apply list_elem_of_In in Hu.
      pose proof (find_none _ _ Hfind u Hu) as Hf. cbn in Hf.
      rewrite bool_decide_eq_true_2 in Hf by exact Hem. discriminate Hf. }
    destruct (decide (uuid4 ∈ id <$> db)) as [Htaken|Hfresh].
    + rewrite (existsb_taken_id uuid4 ADMIN_EMAIL db Htaken).
      cbn [fst snd]. repeat split; auto; try discriminate.
      intros (a & Ha & Hadm). destruct (Hnone a Ha Hadm).
    + rewrite (admin_row_fresh db uuid4 Hnone Hfresh).
      cbn [fst snd]. repeat split; auto; try discriminate.
      intros _. eexists. split; [apply elem_of_app; right;
                                 apply list_elem_of_here | reflexivity].
Qed.

(** [reset_database] takes everything away, the admin row too: after it
    no login succeeds and no token is accepted, until the next startup
    puts back one row, the admin's. *)
Theorem reset_database_empties_the_table (db : DB) :
  let db0 := snd (reset_database db) in
  (forall (t : Z) (username password : pystr),
     login_for_access_token SECRET_KEY t username password db0 =
       (Raise incorrect_login, db0)) /\
  (forall (t : Z) (tok : token),
     get_current_user_obj SECRET_KEY t tok db0 =
       (Raise credentials_exception, db0)) /\
  (forall (now_ms : Z) (uuid4 : pystr) (salt : N),
     exists h : pwhash,
       ctx_hash salt (py "123456") = Return h /\
       ensure_admin now_ms uuid4 salt db0 =
         (Return tt,
          [{| id := uuid4; name := Some (py "Admin User");
              email := ADMIN_EMAIL; email_verified := Some now_ms;
              image := None; password_hash := Some h;
              created_at := now_ms; updated_at := now_ms |}])).
Proof.
  cbn [reset_database snd]. split; [|split].
  - reflexivity.
  - intros t tok. unfold get_current_user_obj.
    destruct (jwt_decode tok SECRET_KEY [ALGORITHM] t) as [payload|];
      [|reflexivity].
    destruct (sub payload); reflexivity.
  - intros now_ms uuid4 salt.
    destruct (ctx_hash_accepted salt _ accepted_123456) as [h Hh].
    exists h. split; [exact Hh|].
    unfold ensure_admin. unfold_m. cbn [List.find].
    rewrite set_password_123456, Hh. reflexivity.
Qed.

(** The startup block on a table with no admin row and a fresh id:
    the admin row is appended, and a login as admin@test.com then gets
    the token with the password 123456, the 401 with any other password
    passlib accepts, and passlib's exception with one it refuses. On a
    table that has an admin row the block changes nothing. *)
Theorem ensure_admin_creates_the_admin (now_ms : Z) (uuid4 : pystr)
    (salt : N) (db : DB) :
  ((exists a, a ∈ db /\ is_admin a) ->
     ensure_admin now_ms uuid4 salt db = (Return tt, db)) /\
  ((forall u, u ∈ db -> email u <> ADMIN_EMAIL) -> (uuid4 ∉ id <$> db) ->
     exists h : pwhash,
       ctx_hash salt (py "123456") = Return h /\
       let row :=
         {| id := uuid4; name := Some (py "Admin User");
            email := ADMIN_EMAIL; email_verified := Some now_ms;
            image := None; password_hash := Some h;
            created_at := now_ms; updated_at := now_ms |} in
       ensure_admin now_ms uuid4 salt db = (Return tt, db ++ [row]) /\
       forall (t : Z) (q : pystr),
         (~ refused q ->
            login_for_access_token SECRET_KEY t ADMIN_EMAIL q (db ++ [row]) =
              (if bool_decide (q = py "123456")
               then Return (login_response SECRET_KEY t row)
               else Raise incorrect_login, db ++ [row])) /\
         (refused q ->
            exists e : PyException,
              login_for_access_token SECRET_KEY t ADMIN_EMAIL q
                (db ++ [row]) = (Crash e, db ++ [row]))).
Proof.
  split.
  - intros (a & Ha & Hadm). unfold ensure_admin. unfold_m.
    destruct (find_admin_Some db a Ha Hadm) as [a' ->]. reflexivity.
  - intros Hnone Hfresh.
    destruct (ctx_hash_accepted salt _ accepted_123456) as [h Hh].
    exists h. split; [exact Hh|]. intros row. split.
    + unfold ensure_admin. unfold_m.
      rewrite (find_none_email db ADMIN_EMAIL Hnone).
      rewrite set_password_123456, Hh.
      cbn [outcome_map email id with_password_hash].
      rewrite (admin_row_fresh db uuid4 Hnone Hfresh). reflexivity.
    + apply (login_against_hash SECRET_KEY (db ++ [row]) row h salt
               (py "123456")); [|reflexivity|exact Hh].
      rewrite find_app_r by (apply find_none_email, Hnone).
      cbn [List.find email row].
      rewrite bool_decide_eq_true_2 by reflexivity. reflexivity.
Qed.

End BootstrapFacts.

(** ** More runs in the small world *)

Lemma ex_db_unique_email : unique_email ex_db.
Proof. apply (bool_decide_unpack _). vm_compute. exact I. Defined.

Lemma ex_carol_resolves :
  @get_current_user_obj sym_crypt sym_jose ex_secret 3000 ex_carol_token ex_db
  = (Return ex_carol, ex_db).
Proof. vm_compute. reflexivity. Defined.

Lemma run_keeps_table_constraints_witness :
  primary_key ex_db /\ unique_email ex_db /\
  primary_key (@run sym_crypt sym_jose ex_secret ex_requests ex_db) /\
  unique_email (@run sym_crypt sym_jose ex_secret ex_requests ex_db).
Proof.
  split; [exact ex_db_primary_key|]. split; [exact ex_db_unique_email|].
  exact (@run_keeps_table_constraints sym_crypt sym_jose ex_secret
           ex_requests ex_db ex_db_primary_key ex_db_unique_email).
Defined.

Lemma serve_changes_at_most_one_row_witness :
  primary_key ex_db /\
  (length ex_db - 1 <=
     length (@serve sym_crypt sym_jose ex_secret
               (@DeleteUsers sym_jose 3000 ex_admin_token (id ex_bob)) ex_db)
   <= length ex_db + 1)%nat.
Proof.
  split; [exact ex_db_primary_key|].
  exact (proj1 (@serve_changes_at_most_one_row sym_crypt sym_jose ex_secret
                  (@DeleteUsers sym_jose 3000 ex_admin_token (id ex_bob))
                  ex_db ex_db_primary_key)).
Defined.

Lemma verify_after_set_password_witness :
  IdealCryptContext sym_crypt /\
  @set_password sym_crypt ex_carol 5 (py "secret") =
    Return (with_password_hash ex_carol
              (Some (sym_hash 5 (py "secret")))) /\
  (verify_password
     (with_password_hash ex_carol
        (Some (sym_hash 5 (py "secret")))) (py "secret") = Return true
   <-> (length (py "secret") <= 72)%nat).
Proof.
  assert (Hset : @set_password sym_crypt ex_carol 5 (py "secret") =
                   Return (with_password_hash ex_carol
                             (Some (sym_hash 5 (py "secret")))))
    by reflexivity.
  split; [exact sym_crypt_ideal|]. split; [exact Hset|].
  exact (proj2 (proj2 (@verify_after_set_password sym_crypt sym_crypt_ideal
                         ex_carol _ 5 (py "secret") Hset))).
Defined.

Lemma set_password_hashes_first_72_characters_witness :
  IdealCryptContext sym_crypt /\
  ~ Exists surrogate [97; 0; 98]%N /\
  (0%N ∈ take 72 [97; 0; 98]%N) /\
  exists e : PyException,
    @set_password sym_crypt ex_carol 5 [97; 0; 98]%N = Crash e.
Proof.
  assert (Hs : ~ Exists surrogate [97; 0; 98]%N)
    by (apply (bool_decide_unpack _); vm_compute; exact I).
  assert (Hn : 0%N ∈ take 72 [97; 0; 98]%N)
    by (apply (bool_decide_unpack _); vm_compute; exact I).
  split; [exact sym_crypt_ideal|]. split; [exact Hs|]. split; [exact Hn|].
  exact (proj1 (proj2 (proj2
           (@set_password_hashes_first_72_characters sym_crypt
              sym_crypt_ideal ex_carol 5 [97; 0; 98]%N))) Hs Hn).
Defined.

Lemma create_user_requires_email_and_password_witness :
  @get_current_user_obj sym_crypt sym_jose ex_secret 3000 ex_admin_token ex_db
    = (Return ex_admin, ex_db) /\
  email ex_admin = ADMIN_EMAIL /\
  ex_empty_password_body !! "password" = Some (py "") /\
  @create_user sym_crypt sym_jose ex_secret 3000 9000 (py "u-dave") 7
    ex_admin_token ex_empty_password_body ex_db =
    (Raise (mkHTTPException 400 "email and password are required" []),
     ex_db).
Proof.
  assert (Hpw : ex_empty_password_body !! "password" = Some (py ""))
    by (vm_compute; reflexivity).
  split; [exact ex_admin_resolves|]. split; [exact ex_admin_is_admin|].
  split; [exact Hpw|].
  apply (@create_user_requires_email_and_password sym_crypt sym_jose
           ex_secret 3000 9000 (py "u-dave") 7 ex_admin_token
           ex_empty_password_body ex_db ex_admin ex_admin_resolves
           ex_admin_is_admin).
  right; right; right. exact Hpw.
Defined.

Lemma delete_user_removes_the_row_witness :
  @get_current_user_obj sym_crypt sym_jose ex_secret 3000 ex_admin_token ex_db
    = (Return ex_admin, ex_db) /\
  email ex_admin = ADMIN_EMAIL /\ primary_key ex_db /\ ex_bob ∈ ex_db /\
  email ex_bob <> ADMIN_EMAIL /\
  @delete_user sym_crypt sym_jose ex_secret 3000 ex_admin_token (id ex_bob)
    ex_db =
    (Return {| message := "User deleted" |},
     List.filter (fun u => negb (bool_decide (id u = id ex_bob))) ex_db).
Proof.
  split; [exact ex_admin_resolves|]. split; [exact ex_admin_is_admin|].
  split; [exact ex_db_primary_key|]. split; [exact ex_bob_in_db|].
  split; [exact ex_bob_not_admin|].
  exact (proj1 (@delete_user_removes_the_row sym_crypt sym_jose ex_secret
                  3000 ex_admin_token ex_db ex_admin ex_bob
                  ex_admin_resolves ex_admin_is_admin ex_db_primary_key
                  ex_bob_in_db ex_bob_not_admin)).
Defined.

Lemma deleted_user_is_locked_out_witness :
  primary_key ex_db /\ unique_email ex_db /\ ex_bob ∈ ex_db /\
  @delete_user sym_crypt sym_jose ex_secret 3000 ex_admin_token (id ex_bob)
    ex_db = (Return {| message := "User deleted" |}, [ex_admin; ex_carol]) /\
  @login_for_access_token sym_crypt sym_jose ex_secret 3100 (email ex_bob)
    (py "hunter2") [ex_admin; ex_carol] =
    (Raise incorrect_login, [ex_admin; ex_carol]).
Proof.
  assert (Hdel : @delete_user sym_crypt sym_jose ex_secret 3000
                   ex_admin_token (id ex_bob) ex_db =
                 (Return {| message := "User deleted" |},
                  [ex_admin; ex_carol]))
    by (vm_compute; reflexivity).
  split; [exact ex_db_primary_key|]. split; [exact ex_db_unique_email|].
  split; [exact ex_bob_in_db|]. split; [exact Hdel|].
  apply (@deleted_user_is_locked_out sym_crypt sym_jose ex_secret 3000
           ex_admin_token ex_db [ex_admin; ex_carol] ex_bob _
           ex_db_primary_key ex_db_unique_email ex_bob_in_db Hdel).
Defined.

Lemma create_user_then_login_witness :
  IdealCryptContext sym_crypt /\
  @get_current_user_obj sym_crypt sym_jose ex_secret 3000 ex_admin_token ex_db
    = (Return ex_admin, ex_db) /\
  email ex_admin = ADMIN_EMAIL /\
  truthy (ex_new_user_body !! "email") = true /\
  truthy (ex_new_user_body !! "password") = true /\
  (str_of (ex_new_user_body !! "email") ∉ email <$> ex_db) /\
  (py "u-dave" ∉ id <$> ex_db) /\
  ~ Exists surrogate (str_of (ex_new_user_body !! "email")) /\
  ~ Exists surrogate (default [] (ex_new_user_body !! "name")) /\
  ~ Exists surrogate (str_of (ex_new_user_body !! "password")) /\
  (0%N ∉ take 72 (str_of (ex_new_user_body !! "password"))) /\
  exists h : @pwhash sym_crypt,
    @create_user sym_crypt sym_jose ex_secret 3000 9000 (py "u-dave") 7
      ex_admin_token ex_new_user_body ex_db =
      (Return {| out_id := py "u-dave"; out_email := py "dave@test.com";
                 out_name := Some (py "Dave") |},
       ex_db ++ [with_password_hash ex_dave (Some h)]).
Proof.
  assert (He : truthy (ex_new_user_body !! "email") = true)
    by (vm_compute; reflexivity).
  assert (Hp : truthy (ex_new_user_body !! "password") = true)
    by (vm_compute; reflexivity).
  assert (Hf : str_of (ex_new_user_body !! "email") ∉ email <$> ex_db)
    by (apply (bool_decide_unpack _); vm_compute; exact I).
  assert (Hi : py "u-dave" ∉ id <$> ex_db)
    by (apply (bool_decide_unpack _); vm_compute; exact I).
  assert (Hse : ~ Exists surrogate (str_of (ex_new_user_body !! "email")))
    by (apply (bool_decide_unpack _); vm_compute; exact I).
  assert (Hsn : ~ Exists surrogate (default [] (ex_new_user_body !! "name")))
    by (apply (bool_decide_unpack _); vm_compute; exact I).
  assert (Hs : ~ Exists surrogate (str_of (ex_new_user_body !! "password")))
    by (apply (bool_decide_unpack _); vm_compute; exact I).
  assert (Hn : 0%N ∉ take 72 (str_of (ex_new_user_body !! "password")))
    by (apply (bool_decide_unpack _); vm_compute; exact I).
  split; [exact sym_crypt_ideal|]. split; [exact ex_admin_resolves|].
  split; [exact ex_admin_is_admin|]. split; [exact He|]. split; [exact Hp|].
  split; [exact Hf|]. split; [exact Hi|]. split; [exact Hse|].
  split; [exact Hsn|]. split; [exact Hs|]. split; [exact Hn|].
  destruct (@create_user_then_login sym_crypt sym_jose ex_secret
              sym_crypt_ideal 3000 9000 (py "u-dave") 7 ex_admin_token
              ex_new_user_body ex_db ex_admin ex_admin_resolves
              ex_admin_is_admin He Hp Hf Hi Hse Hsn Hs Hn)
    as (h & _ & Hcreate & _).
  exists h. exact Hcreate.
Defined.

Lemma change_password_then_login_witness :
  IdealCryptContext sym_crypt /\
  @get_current_user_obj sym_crypt sym_jose ex_secret 3000 ex_bob_token ex_db
    = (Return ex_bob, ex_db) /\
  primary_key ex_db /\
  truthy (ex_bob_change_body !! "current_password") = true /\
  truthy (ex_bob_change_body !! "new_password") = true /\
  verify_password ex_bob (str_of (ex_bob_change_body !! "current_password"))
    = Return true /\
  ~ Exists surrogate (str_of (ex_bob_change_body !! "new_password")) /\
  (0%N ∉ take 72 (str_of (ex_bob_change_body !! "new_password"))) /\
  exists h : @pwhash sym_crypt,
    @change_password sym_crypt sym_jose ex_secret 3000 7 ex_bob_token
      ex_bob_change_body ex_db =
      (Return {| message := "Password changed successfully" |},
       [ex_admin; with_password_hash ex_bob (Some h); ex_carol]).
Proof.
  assert (Hc : truthy (ex_bob_change_body !! "current_password") = true)
    by (vm_compute; reflexivity).
  assert (Hn : truthy (ex_bob_change_body !! "new_password") = true)
    by (vm_compute; reflexivity).
  assert (Hv : verify_password ex_bob
                 (str_of (ex_bob_change_body !! "current_password"))
               = Return true)
    by (vm_compute; reflexivity).
  assert (Hs : ~ Exists surrogate
                   (str_of (ex_bob_change_body !! "new_password")))
    by (apply (bool_decide_unpack _); vm_compute; exact I).
  assert (Hz : 0%N ∉ take 72 (str_of (ex_bob_change_body !! "new_password")))
    by (apply (bool_decide_unpack _); vm_compute; exact I).
  split; [exact sym_crypt_ideal|]. split; [exact ex_bob_resolves|].
  split; [exact ex_db_primary_key|]. split; [exact Hc|]. split; [exact Hn|].
  split; [exact Hv|]. split; [exact Hs|]. split; [exact Hz|].
  destruct (@change_password_then_login sym_crypt sym_jose ex_secret
              sym_crypt_ideal 3000 7 ex_bob_token ex_bob_change_body
              ex_db ex_bob ex_bob_resolves ex_db_primary_key Hc Hn Hv
              Hs Hz) as (h & _ & Hchange & _).
  exists h. exact Hchange.
Defined.

Lemma passwordless_user_stays_passwordless_witness :
  @get_current_user_obj sym_crypt sym_jose ex_secret 3000 ex_carol_token ex_db
    = (Return ex_carol, ex_db) /\
  password_hash ex_carol = None /\
  @login_for_access_token sym_crypt sym_jose ex_secret 3000 (email ex_carol)
    (py "anything") ex_db = (Raise incorrect_login, ex_db).
Proof.
  split; [exact ex_carol_resolves|]. split; [reflexivity|].
  apply (@passwordless_user_stays_passwordless sym_crypt sym_jose ex_secret
           3000 ex_carol_token ex_db ex_carol ex_carol_resolves eq_refl).
Defined.

Lemma token_is_resolved_by_email_alone_witness :
  unique_email ex_db /\
  (@get_current_user_obj sym_crypt sym_jose ex_secret 3000 ex_bob_token ex_db
     = (Return ex_bob, ex_db) <->
   ex_bob ∈ ex_db /\
   exists payload : Claims,
     sym_decode ex_bob_token ex_secret [ALGORITHM] 3000 = inl payload /\
     sub payload = Some (email ex_bob)).
Proof.
  split; [exact ex_db_unique_email|].
  exact (@token_is_resolved_by_email_alone sym_crypt sym_jose ex_secret
           3000 ex_bob_token ex_db ex_bob ex_db_unique_email).
Defined.

Lemma login_token_is_valid_for_30_minutes_witness :
  IdealJOSE sym_jose /\
  @login_for_access_token sym_crypt sym_jose ex_secret 3000
    (py "bob@test.com") (py "hunter2") ex_db = (Return ex_bob_login, ex_db) /\
  @get_current_user sym_crypt sym_jose ex_secret 4801
    (access_token ex_bob_login) ex_db = (Raise credentials_exception, ex_db).
Proof.
  assert (Hlogin : @login_for_access_token sym_crypt sym_jose ex_secret 3000
                     (py "bob@test.com") (py "hunter2") ex_db =
                   (Return ex_bob_login, ex_db))
    by (vm_compute; reflexivity).
  split; [exact sym_jose_ideal|]. split; [exact Hlogin|].
  apply (proj2 (@login_token_is_valid_for_30_minutes sym_crypt sym_jose
                  ex_secret sym_jose_ideal 3000 (py "bob@test.com")
                  (py "hunter2") ex_db ex_bob_login Hlogin) 4801%Z).
  lia.
Defined.

Lemma access_token_default_lifetime_witness :
  IdealJOSE sym_jose /\
  @create_access_token sym_jose ex_secret
    {| sub := Some (email ex_bob); user_id := None; exp := None |}
    (Some 0%Z) 3000 =
  @create_access_token sym_jose ex_secret
    {| sub := Some (email ex_bob); user_id := None; exp := None |}
    None 3000 /\
  sym_decode
    (@create_access_token sym_jose ex_secret
       {| sub := Some (email ex_bob); user_id := None; exp := None |}
       (Some (-60)%Z) 3000)
    ex_secret [ALGORITHM] 3000 = inr ExpiredSignatureError.
Proof.
  pose proof (@access_token_default_lifetime sym_jose ex_secret
                sym_jose_ideal
                {| sub := Some (email ex_bob); user_id := None; exp := None |}
                3000) as (Hzero & _ & _ & Hneg).
  split; [exact sym_jose_ideal|]. split; [exact Hzero|].
  apply (Hneg (-60)%Z 3000%Z); lia.
Defined.

Lemma ensure_admin_creates_the_admin_witness :
  IdealCryptContext sym_crypt /\
  (forall u, u ∈ [ex_bob; ex_carol] -> email u <> ADMIN_EMAIL) /\
  (py "u-root" ∉ id <$> [ex_bob; ex_carol]) /\
  exists h : @pwhash sym_crypt,
    @ensure_admin sym_crypt 500 (py "u-root") 3 [ex_bob; ex_carol] =
      (Return tt, [ex_bob; ex_carol; with_password_hash ex_root (Some h)]).
Proof.
  assert (Hnone : forall u, u ∈ [ex_bob; ex_carol] -> email u <> ADMIN_EMAIL).
  { apply Forall_forall. apply (bool_decide_unpack _). vm_compute. exact I. }
  assert (Hfresh : py "u-root" ∉ id <$> [ex_bob; ex_carol])
    by (apply (bool_decide_unpack _); vm_compute; exact I).
  split; [exact sym_crypt_ideal|]. split; [exact Hnone|].
  split; [exact Hfresh|].
  destruct (proj2 (@ensure_admin_creates_the_admin sym_crypt sym_jose
                     ex_secret sym_crypt_ideal 500 (py "u-root") 3
                     [ex_bob; ex_carol]) Hnone Hfresh)
    as (h & _ & Hensure & _).
  exists h. exact Hensure.
Defined.

Lemma create_admin_user_like_startup_witness :
  IdealCryptContext sym_crypt /\
  snd (@create_admin_user sym_crypt 500 (py "u-bob") 3 [ex_bob; ex_carol]) =
    snd (@ensure_admin sym_crypt 500 (py "u-bob") 3 [ex_bob; ex_carol]).
Proof.
  split; [exact sym_crypt_ideal|].
  exact (proj1 (@create_admin_user_like_startup sym_crypt sym_crypt_ideal
                  500 (py "u-bob") 3 [ex_bob; ex_carol])).
Defined.

Lemma reset_database_empties_the_table_witness :
  IdealCryptContext sym_crypt /\
  @login_for_access_token sym_crypt sym_jose ex_secret 3000
    (py "admin@test.com") (py "123456")
    (snd (@reset_database sym_crypt ex_db)) =
    (Raise incorrect_login, snd (@reset_database sym_crypt ex_db)).
Proof.
  split; [exact sym_crypt_ideal|].
  apply (@reset_database_empties_the_table sym_crypt sym_jose ex_secret
           sym_crypt_ideal ex_db).
Defined.

(** The bootstrap on [ex_db], which has its admin, the script on a table
    where the id it draws is taken, and a reset. *)
Example ex_bootstrap :
  @ensure_admin sym_crypt 500 (py "u-root") 3 ex_db = (Return tt, ex_db) /\
  @create_admin_user sym_crypt 500 (py "u-bob") 3 [ex_bob; ex_carol] =
    (Crash IntegrityError, [ex_bob; ex_carol]) /\
  @ensure_admin sym_crypt 500 (py "u-bob") 3 [ex_bob; ex_carol] =
    (Return tt, [ex_bob; ex_carol]) /\
  @ensure_admin sym_crypt 500 (py "u-root") 3
    (snd (@reset_database sym_crypt ex_db)) = (Return tt, [ex_root]).
Proof. vm_compute. repeat split. Qed.

(** A password that holds a lone surrogate: [set_password] raises, and
    POST /users with it inserts nothing. *)
Example ex_surrogate_password :
  @set_password sym_crypt ex_carol 5 [0x70; 0xD800]%N =
    Crash UnicodeEncodeError /\
  @create_user sym_crypt sym_jose ex_secret 3000 9000 (py "u-dave") 7
    ex_admin_token
    {[ "email" := py "dave@test.com"; "password" := [0x70; 0xD800]%N ]}
    ex_db = (Crash UnicodeEncodeError, ex_db).
Proof. vm_compute. repeat split. Qed.

(** ** The listing *)

Section ListingFacts.
Context {C : CryptContext} {J : JOSE}.
Variable SECRET_KEY : pystr.

(** GET /users by the admin returns one entry per row, in the order of
    the table, with the id, email and name of the row, and does not touch
    the table; rows added after the admin's own row show up at the end of
    the listing, behind the entries that were there. *)
Theorem list_users_lists_every_row (utcnow : Z) (tok : token) (db : DB)
    (actor : User) :
  get_current_user_obj SECRET_KEY utcnow tok db = (Return actor, db) ->
  email actor = ADMIN_EMAIL ->
  let entry u :=
    {| out_id := id u; out_email := email u; out_name := name u |} in
  forall added : DB,
    exists listing : list UserOut,
      list_users SECRET_KEY utcnow tok (db ++ added) =
        (Return listing, db ++ added) /\
      listing = (entry <$> db) ++ (entry <$> added) /\
      length listing = (length db + length added)%nat /\
      forall (i : nat) (u : User),
        (db ++ added) !! i = Some u -> listing !! i = Some (entry u).
Proof.
  intros Hactor Hadm entry added.
  pose proof (resolved_actor_app SECRET_KEY utcnow tok db added actor Hactor)
    as Hactor'.
  exists (entry <$> (db ++ added)). split; [|split; [|split]].
  - unfold list_users, bind. rewrite Hactor'.
    rewrite (bool_decide_eq_true_2 _ Hadm). reflexivity.
  - apply fmap_app.
  - rewrite length_fmap, length_app. reflexivity.
  - intros i u Hi. rewrite list_lookup_fmap, Hi. reflexivity.
Qed.

End ListingFacts.

Lemma list_users_lists_every_row_witness :
  @get_current_user_obj sym_crypt sym_jose ex_secret 3000 ex_admin_token ex_db
    = (Return ex_admin, ex_db) /\
  email ex_admin = ADMIN_EMAIL /\
  exists listing : list UserOut,
    @list_users sym_crypt sym_jose ex_secret 3000 ex_admin_token
      (ex_db ++ [ex_dave]) = (Return listing, ex_db ++ [ex_dave]) /\
    length listing = 4%nat.
Proof.
  split; [exact ex_admin_resolves|]. split; [exact ex_admin_is_admin|].
  destruct (@list_users_lists_every_row sym_crypt sym_jose ex_secret 3000
              ex_admin_token ex_db ex_admin ex_admin_resolves
              ex_admin_is_admin [ex_dave])
    as (listing & Hlist & _ & Hlen & _).
  exists listing. split; [exact Hlist | exact Hlen].
Defined.
